(** * Gamestats ranking retrieval: a shallow embedding of
      [project/gamestats_database.py]

    The development models the "gamestats2" part of the database module:
    the [ranking] table, the six [web_get2_*] retrieval strategies, the
    dispatcher [web_get2], and the two helpers [get2_dictrow] and
    [sort_rows].

    Modelling conventions.
    - Python integers and SQLite INT columns are [Z]; the bitwise test
      [region & ?] is [Z.land].  Arithmetic on scores is taken over
      unbounded integers; SQLite computes the same values as long as no
      difference of two scores leaves the 64-bit range (a theorem that
      depends on the distance arithmetic of mode 2 says so in a
      hypothesis).
    - A [datetime] is the number of microseconds since 1970-01-01 00:00:00,
      so [datetime(1970, 1, 1)] is [0] and [timedelta(minutes=m)] is
      [m * 60000000].  [datetime.now()] is an explicit argument [now].
      Both types are bounded as in Python: a [timedelta] holds at most
      999999999 days, a [datetime] lies between year 1 and year 9999, and
      leaving either range raises [OverflowError].
    - The [ranking] table is the list of its rows in rowid order, and it
      has the unique index [idx_unique_ranking] that [init] creates.
      Every row query constrains [gamename], so SQLite answers it from
      that index: the matching rows are visited in the order of the index,
      that is by pid, then region, then category.  [ORDER BY] sorts what is
      visited with a stable sort (SQLite's sorter keeps rows with equal
      keys in the order they were visited).
    - [LIMIT n] keeps the first [n] rows and, as in SQLite, keeps every row
      when [n] is negative.  [x IN (...)] with an empty list is accepted by
      SQLite and is false for every row.
    - The request options ([data] in the source) are a dictionary whose
      recognised keys carry the types the interface documents; each key is
      an optional field of the record [Options].
    - Every [cursor.execute] appends the SQL text it was given to a log, so
      that "which statements were issued" is part of the outcome. *)

From Stdlib Require Import ZArith List String Bool Lia Btauto.
From Stdlib Require Import Sorting.Sorted Sorting.Permutation.
From Stdlib Require Import DecimalString DecimalPos DecimalZ.
Import ListNotations.

Open Scope string_scope.
Open Scope Z_scope.

(** ** Data model *)

(** A row of the [ranking] table, as [dict_factory] returns it. *)
Record Row : Type := mkRow {
  r_gamename : string;
  r_pid : Z;
  r_region : Z;
  r_category : Z;
  r_score : Z;
  r_data : string;
  r_updated : Z
}.

Definition Store : Type := list Row.

(** The request options dictionary: keys "updated", "limit", "filter",
    "friends" and the key "since" that [web_get2] writes. *)
Record Options : Type := mkOptions {
  o_updated : option Z;
  o_limit : option Z;
  o_filter : option Z;
  o_friends : option (list Z);
  o_since : option Z
}.

(** [data["since"] = v] *)
Definition set_since (data : Options) (v : Z) : Options :=
  mkOptions (o_updated data) (o_limit data) (o_filter data)
            (o_friends data) (Some v).

(** [d.get(key, default)] on an optional entry. *)
Definition dict_get {A : Type} (entry : option A) (default : A) : A :=
  match entry with
  | Some v => v
  | None => default
  end.

(** Truth value of a Python integer. *)
Definition truthy (z : Z) : bool := negb (z =? 0).

(** ["{}".format(i)] for an integer. *)
Definition format_int (z : Z) : string :=
  NilZero.string_of_int (Z.to_int z).

(** Reading a decimal integer back (used only to state that a message
    determines the integer it was built from). *)
Definition parse_int (s : string) : option Z :=
  option_map Z.of_int (NilZero.int_of_string s).

(** ** Outcomes and the cursor monad *)

Inductive exn : Type :=
| ValueError (msg : string)
| KeyError (key : string)
| OverflowError.

Inductive outcome (A : Type) : Type :=
| Return (a : A)
| Raise (e : exn).

Arguments Return {A} a.
Arguments Raise {A} e.

(** A computation on a cursor: it receives the log of the statements
    executed so far and gives back its outcome and the extended log. *)
Definition Cursor (A : Type) : Type :=
  list string -> outcome A * list string.

Definition ret {A : Type} (a : A) : Cursor A :=
  fun log => (Return a, log).

Definition raise {A : Type} (e : exn) : Cursor A :=
  fun log => (Raise e, log).

Definition bind {A B : Type} (m : Cursor A) (k : A -> Cursor B) : Cursor B :=
  fun log =>
    match m log with
    | (Return a, log') => k a log'
    | (Raise e, log') => (Raise e, log')
    end.

Declare Scope cursor_scope.
Delimit Scope cursor_scope with cursor.
Notation "x <- m ;; k" := (bind m (fun x => k))
  (at level 61, m at next level, right associativity) : cursor_scope.
Open Scope cursor_scope.

(** [cursor.execute(sql, ...)] followed by a fetch: the statement text is
    logged and [result] is what the store answers. *)
Definition execute {A : Type} (sql : string) (result : A) : Cursor A :=
  fun log => (Return result, (log ++ [sql])%list).

(** Run a computation on a fresh connection. *)
Definition run {A : Type} (m : Cursor A) : outcome A * list string := m [].

(** [data["since"]] *)
Definition getitem_since (data : Options) : Cursor Z :=
  match o_since data with
  | Some v => ret v
  | None => raise (KeyError "since")
  end.

(** ** The store's query operators *)

Section Sorting.
Variable before : Row -> Row -> bool.

Fixpoint insert_row (x : Row) (l : list Row) : list Row :=
  match l with
  | [] => [x]
  | y :: l' => if before x y then x :: l else y :: insert_row x l'
  end.

(** Stable sort: a row is placed in front of the first row it may
    precede, hence in front of the rows it ties with that came later. *)
Definition stable_sort (l : list Row) : list Row :=
  fold_right insert_row [] l.
End Sorting.

(** Order on keys: ascending, or descending when [reverse]. *)
Definition key_before (key : Row -> Z) (reverse : bool) (x y : Row) : bool :=
  if reverse then key y <=? key x else key x <=? key y.

(** [rows.sort(key=..., reverse=...)]: Python's sort is stable in both
    directions. *)
Definition list_sort (key : Row -> Z) (reverse : bool) (rows : list Row)
  : list Row :=
  stable_sort (key_before key reverse) rows.

(** [ORDER BY key dir]: [dir] is the text put after the key; only "DESC"
    sorts downwards, "ASC" and the empty modifier sort upwards. *)
Definition sql_order_by (key : Row -> Z) (dir : string) (rows : list Row)
  : list Row :=
  stable_sort (key_before key (dir =? "DESC")%string) rows.

(** [LIMIT n]: a negative [n] means no upper bound. *)
Definition sql_limit (n : Z) (rows : list Row) : list Row :=
  if n <? 0 then rows else firstn (Z.to_nat n) rows.

(** [SELECT COUNT( * )] *)
Definition sql_count (rows : list Row) : Z := Z.of_nat (List.length rows).

(** [cursor.fetchone()] *)
Definition fetchone (rows : list Row) : option Row := hd_error rows.

(** The order of [idx_unique_ranking] on rows of one game: by pid, then
    region, then category. *)
Definition index_before (a b : Row) : bool :=
  (r_pid a <? r_pid b)
  || ((r_pid a =? r_pid b)
      && ((r_region a <? r_region b)
          || ((r_region a =? r_region b)
              && (r_category a <=? r_category b)))).

(** The rows a [WHERE] clause selects, in the order in which the index
    yields them (rows with the same key stay in rowid order). *)
Definition index_scan (matching : list Row) : list Row :=
  stable_sort index_before matching.

(** [region & ?] used as a condition: true when the AND is non-zero. *)
Definition region_and (r : Row) (region : Z) : bool :=
  negb (Z.land (r_region r) region =? 0).

(** ** Helpers of the module *)

(** [get2_dictrow(gamename, pid, region, category, score=0, data=b"",
    updated=0)] *)
Definition get2_dictrow (gamename : string) (pid region category : Z)
    (score : Z) (data : string) (updated : Z) : Row :=
  mkRow gamename pid region category score data updated.

(** The row substituted for a missing own record: the call
    [get2_dictrow(gamename, pid, 0xFFFFFFFF, category)] with the defaults
    of the remaining arguments. *)
Definition default_mine (gamename : string) (pid category : Z) : Row :=
  get2_dictrow gamename pid 0xFFFFFFFF category 0 "" 0.

(** [sort_rows(data, rows, mine=None)] *)
Definition sort_rows (data : Options) (rows : list Row) (mine : option Row)
  : list Row :=
  match mine with
  | None => rows
  | Some m =>
      if truthy (dict_get (o_filter data) 1)
      then m :: list_sort r_score true rows
      else m :: list_sort r_score false rows
  end.

(** [GamestatsDatabase.FILTERS.get(data.get("filter"), "")]: the table
    maps 0 to "ASC" and 1 to "DESC"; a missing key (then the looked-up key
    is [None]) and any other key give the empty text. *)
Definition FILTERS_get (key : option Z) : string :=
  match key with
  | Some 0 => "ASC"
  | Some 1 => "DESC"
  | _ => ""
  end.

(** ** The WHERE clauses *)

(** [gamename = ? AND region & ? AND category = ? AND pid = ?] *)
Definition where_mine (gamename : string) (region category pid : Z)
    (r : Row) : bool :=
  (r_gamename r =? gamename)%string && region_and r region
  && (r_category r =? category) && (r_pid r =? pid).

(** [gamename = ? AND region & ? AND category = ? AND updated >= ?] *)
Definition where_all (gamename : string) (region category since : Z)
    (r : Row) : bool :=
  (r_gamename r =? gamename)%string && region_and r region
  && (r_category r =? category) && (since <=? r_updated r).

(** [gamename = ? AND region & ? AND category = ? AND pid != ?
     AND updated >= ?] *)
Definition where_nearby (gamename : string) (region category pid since : Z)
    (r : Row) : bool :=
  (r_gamename r =? gamename)%string && region_and r region
  && (r_category r =? category) && negb (r_pid r =? pid)
  && (since <=? r_updated r).

(** [gamename = ? AND region = ? AND category = ? AND pid IN (...)
     AND updated >= ?] *)
Definition where_friends (gamename : string) (region category : Z)
    (friends : list Z) (since : Z) (r : Row) : bool :=
  (r_gamename r =? gamename)%string && (r_region r =? region)
  && (r_category r =? category) && existsb (Z.eqb (r_pid r)) friends
  && (since <=? r_updated r).

(** [gamename = ? AND region & ? AND category = ? AND pid != ?
     AND (score - ?) >= 0 AND updated >= ?] *)
Definition where_nearhi (gamename : string) (region category pid : Z)
    (mine_score since : Z) (r : Row) : bool :=
  (r_gamename r =? gamename)%string && region_and r region
  && (r_category r =? category) && negb (r_pid r =? pid)
  && (0 <=? r_score r - mine_score) && (since <=? r_updated r).

(** [gamename = ? AND region & ? AND category = ? AND pid != ?
     AND (score - ?) <= 0 AND updated >= ?] *)
Definition where_nearlo (gamename : string) (region category pid : Z)
    (mine_score since : Z) (r : Row) : bool :=
  (r_gamename r =? gamename)%string && region_and r region
  && (r_category r =? category) && negb (r_pid r =? pid)
  && (r_score r - mine_score <=? 0) && (since <=? r_updated r).

(** The text spliced into [pid IN ({})]:
    [", ".join("{}".format(i) for i in data.get("friends", []))] *)
Definition friends_list_text (data : Options) : string :=
  String.concat ", " (map format_int (dict_get (o_friends data) [])).

(** The own-record lookup shared by modes 2 to 5: the first row of the
    lookup (the index yields the matches by ascending region), or the
    default row when there is none ([if not mine]). *)
Definition select_mine (db : Store) (gamename : string)
    (pid region category : Z) : Cursor Row :=
  mine <- execute
    ("SELECT * FROM ranking"
     ++ " WHERE gamename = ? AND region & ? AND category = ?"
     ++ " AND pid = ?")
    (fetchone
       (index_scan (List.filter (where_mine gamename region category pid) db))) ;;
  ret (match mine with
       | Some m => m
       | None => default_mine gamename pid category
       end).

(** ** The six strategies *)

Definition web_get2_own (db : Store) (gamename : string)
    (pid region category : Z) (data : Options) : Cursor (Z * list Row) :=
  since <- getitem_since data ;;
  let '(limit, bound) :=
    (* [data["limit"]] is read only when [data.get("limit", 0)] is true *)
    if truthy (dict_get (o_limit data) 0)
    then (" LIMIT ?", Some (dict_get (o_limit data) 0))
    else ("", None) in
  let matching := List.filter (where_all gamename region category since) db in
  let ordered :=
    sql_order_by r_score (FILTERS_get (o_filter data)) (index_scan matching) in
  rows <- execute
    ("SELECT * FROM ranking"
     ++ " WHERE gamename = ? AND region & ? AND category = ?"
     ++ " AND updated >= ? ORDER BY score " ++ FILTERS_get (o_filter data)
     ++ limit)
    (match bound with
     | Some n => sql_limit n ordered
     | None => ordered
     end) ;;
  total <- execute
    ("SELECT COUNT(*) AS total FROM ranking"
     ++ " WHERE gamename = ? AND region & ? AND category = ?"
     ++ " AND updated >= ?")
    (sql_count matching) ;;
  ret (total, sort_rows data rows None).

Definition web_get2_top (db : Store) (gamename : string)
    (pid region category : Z) (data : Options) : Cursor (Z * list Row) :=
  since <- getitem_since data ;;
  let matching := List.filter (where_all gamename region category since) db in
  rows <- execute
    ("SELECT * FROM ranking"
     ++ " WHERE gamename = ? AND region & ? AND category = ?"
     ++ " AND updated >= ? ORDER BY score " ++ FILTERS_get (o_filter data)
     ++ " LIMIT ?")
    (sql_limit (dict_get (o_limit data) 10)
       (sql_order_by r_score (FILTERS_get (o_filter data))
          (index_scan matching))) ;;
  total <- execute
    ("SELECT COUNT(*) AS total FROM ranking"
     ++ " WHERE gamename = ? AND region & ? AND category = ?"
     ++ " AND updated >= ?")
    (sql_count matching) ;;
  ret (total, sort_rows data rows None).

Definition web_get2_nearby (db : Store) (gamename : string)
    (pid region category : Z) (data : Options) : Cursor (Z * list Row) :=
  mine <- select_mine db gamename pid region category ;;
  since <- getitem_since data ;;
  let matching :=
    List.filter (where_nearby gamename region category pid since) db in
  others <- execute
    ("SELECT * FROM ranking"
     ++ " WHERE gamename = ? AND region & ? AND category = ?"
     ++ " AND pid != ? AND updated >= ?"
     ++ " ORDER BY ABS(? - score) " ++ FILTERS_get (o_filter data)
     ++ " LIMIT ?")
    (sql_limit (dict_get (o_limit data) 10 - 1)
       (sql_order_by (fun r => Z.abs (r_score mine - r_score r))
          (FILTERS_get (o_filter data)) (index_scan matching))) ;;
  total <- execute
    ("SELECT COUNT(*) AS total FROM ranking"
     ++ " WHERE gamename = ? AND region & ? AND category = ?"
     ++ " AND pid != ? AND updated >= ?")
    (sql_count matching) ;;
  ret (total, sort_rows data others (Some mine)).

Definition web_get2_friends (db : Store) (gamename : string)
    (pid region category : Z) (data : Options) : Cursor (Z * list Row) :=
  mine <- select_mine db gamename pid region category ;;
  since <- getitem_since data ;;
  let matching :=
    List.filter (where_friends gamename region category
                   (dict_get (o_friends data) []) since) db in
  friends <- execute
    ("SELECT * FROM ranking"
     ++ " WHERE gamename = ? AND region = ? AND category = ?"
     ++ " AND pid IN (" ++ friends_list_text data ++ ") AND updated >= ?"
     ++ " ORDER BY score " ++ FILTERS_get (o_filter data) ++ " LIMIT ?")
    (sql_limit (dict_get (o_limit data) 10 - 1)
       (sql_order_by r_score (FILTERS_get (o_filter data))
          (index_scan matching))) ;;
  total <- execute
    ("SELECT COUNT(*) AS total FROM ranking"
     ++ " WHERE gamename = ? AND region = ? AND category = ?"
     ++ " AND pid IN (" ++ friends_list_text data ++ ") AND updated >= ?")
    (sql_count matching) ;;
  ret (total, sort_rows data friends (Some mine)).

Definition web_get2_nearhi (db : Store) (gamename : string)
    (pid region category : Z) (data : Options) : Cursor (Z * list Row) :=
  mine <- select_mine db gamename pid region category ;;
  since <- getitem_since data ;;
  let matching :=
    List.filter
      (where_nearhi gamename region category pid (r_score mine) since) db in
  others <- execute
    ("SELECT * FROM ranking"
     ++ " WHERE gamename = ? AND region & ? AND category = ?"
     ++ " AND pid != ? AND (score - ?) >= 0 AND updated >= ?"
     ++ " ORDER BY score " ++ FILTERS_get (o_filter data) ++ " LIMIT ?")
    (sql_limit (dict_get (o_limit data) 10 - 1)
       (sql_order_by r_score (FILTERS_get (o_filter data))
          (index_scan matching))) ;;
  total <- execute
    ("SELECT COUNT(*) AS total FROM ranking"
     ++ " WHERE gamename = ? AND region & ? AND category = ?"
     ++ " AND pid != ? AND (score - ?) >= 0 AND updated >= ?")
    (sql_count matching) ;;
  ret (total, sort_rows data others (Some mine)).

Definition web_get2_nearlo (db : Store) (gamename : string)
    (pid region category : Z) (data : Options) : Cursor (Z * list Row) :=
  mine <- select_mine db gamename pid region category ;;
  since <- getitem_since data ;;
  let matching :=
    List.filter
      (where_nearlo gamename region category pid (r_score mine) since) db in
  others <- execute
    ("SELECT * FROM ranking"
     ++ " WHERE gamename = ? AND region & ? AND category = ?"
     ++ " AND pid != ? AND (score - ?) <= 0 AND updated >= ?"
     ++ " ORDER BY score " ++ FILTERS_get (o_filter data) ++ " LIMIT ?")
    (sql_limit (dict_get (o_limit data) 10 - 1)
       (sql_order_by r_score (FILTERS_get (o_filter data))
          (index_scan matching))) ;;
  total <- execute
    ("SELECT COUNT(*) AS total FROM ranking"
     ++ " WHERE gamename = ? AND region & ? AND category = ?"
     ++ " AND pid != ? AND (score - ?) <= 0 AND updated >= ?")
    (sql_count matching) ;;
  ret (total, sort_rows data others (Some mine)).

(** ** The dispatcher *)

(** The least and the greatest [datetime]: 0001-01-01 00:00:00 and
    9999-12-31 23:59:59.999999. *)
Definition datetime_min : Z := -62135596800000000.
Definition datetime_max : Z := 253402300799999999.

(** [timedelta(minutes=m)]: the number of whole days, [m // 1440], must
    have magnitude at most 999999999. *)
Definition timedelta_minutes (m : Z) : outcome Z :=
  if Z.abs (m / 1440) <=? 999999999
  then Return (m * 60000000)
  else Raise OverflowError.

(** [a - delta] for a [datetime] and a [timedelta]: the result must be a
    [datetime]. *)
Definition datetime_sub (a delta : Z) : outcome Z :=
  if (datetime_min <=? a - delta) && (a - delta <=? datetime_max)
  then Return (a - delta)
  else Raise OverflowError.

(** The cutoff [web_get2] stores under "since": [now] minus the window in
    minutes when [data.get("updated", 0)] is true, the epoch otherwise. *)
Definition resolve_since (now : Z) (data : Options) : outcome Z :=
  if truthy (dict_get (o_updated data) 0)
  then match timedelta_minutes (dict_get (o_updated data) 0) with
       | Return delta => datetime_sub now delta
       | Raise e => Raise e
       end
  else Return 0.

(** [web_get2(gamename, pid, region, category, mode, data)].  The options
    dictionary is updated in place before the mode is looked at, so the
    model returns the dictionary as the call leaves it together with the
    computation that follows.  When the cutoff cannot be computed the call
    raises before it has written anything. *)
Definition web_get2 (db : Store) (now : Z) (gamename : string)
    (pid region category mode : Z) (data : Options)
  : Options * Cursor (Z * list Row) :=
  match resolve_since now data with
  | Raise e => (data, raise e)
  | Return since =>
  let data := set_since data since in
  (data,
   if mode =? 0 then web_get2_own db gamename pid region category data
   else if mode =? 1 then web_get2_top db gamename pid region category data
   else if mode =? 2 then web_get2_nearby db gamename pid region category data
   else if mode =? 3 then web_get2_friends db gamename pid region category data
   else if mode =? 4 then web_get2_nearhi db gamename pid region category data
   else if mode =? 5 then web_get2_nearlo db gamename pid region category data
   else raise (ValueError ("Unknown get2 mode: " ++ format_int mode)))
  end.

(** What a caller observes of one call on a fresh connection: the outcome,
    the statements issued, and the options dictionary afterwards. *)
Definition retrieve (db : Store) (now : Z) (gamename : string)
    (pid region category mode : Z) (data : Options)
  : outcome (Z * list Row) :=
  fst (run (snd (web_get2 db now gamename pid region category mode data))).

Definition issued (db : Store) (now : Z) (gamename : string)
    (pid region category mode : Z) (data : Options) : list string :=
  snd (run (snd (web_get2 db now gamename pid region category mode data))).

(** ** A concrete store *)

Definition no_options : Options := mkOptions None None None None None.

Definition demo_row (pid score : Z) : Row :=
  mkRow "demo" pid 1 0 score "" 1700000000000000.

Definition demo_store : Store :=
  [demo_row 7 50; demo_row 8 80; demo_row 9 30].

Definition demo_now : Z := 1700000060000000.

(** The demo store after player 7 has been away: its row was last written
    five microseconds after the epoch. *)
Definition stale_row : Row := mkRow "demo" 7 1 0 50 "" 5.

Definition stale_store : Store := [stale_row; demo_row 8 80].

(** Options asking for a window of 2000000000 minutes, which reaches back
    beyond the first year a [datetime] can hold. *)
Definition huge_window : Options :=
  mkOptions (Some 2000000000) None None None None.

(** Options asking for the last minute only. *)
Definition last_minute : Options := mkOptions (Some 1) None None None None.

(** A table with one record, of player 7, written for region 3. *)
Definition region3_row : Row := mkRow "demo" 7 3 0 50 "" 1700000000000000.

(** Eleven players of the demo game, with scores 10, 20, ..., 110. *)
Definition eleven_rows : Store :=
  map (fun i => demo_row i (10 * i)) [1; 2; 3; 4; 5; 6; 7; 8; 9; 10; 11].

(** [data] with the entry "limit" replaced (or removed). *)
Definition set_limit (data : Options) (limit : option Z) : Options :=
  mkOptions (o_updated data) limit (o_filter data) (o_friends data)
            (o_since data).

(** Options carrying only a limit, only a friend list. *)
Definition with_limit (n : Z) : Options :=
  mkOptions None (Some n) None None None.

Definition with_friends (l : list Z) : Options :=
  mkOptions None None None (Some l) None.


(** Monotonicity of a list of rows in the score. *)
Definition ascending (l : list Row) : Prop :=
  Sorted (fun x y => r_score x <= r_score y) l.

Definition descending (l : list Row) : Prop :=
  Sorted (fun x y => r_score y <= r_score x) l.

(** ** The strategies side by side

    The definitions below restate, per mode, the three ingredients in
    which the six strategies differ; they are used to reason about all
    modes at once and are related to [web_get2] by [retrieve_uniform]. *)

(** The requester's own row as modes 2 to 5 obtain it. *)
Definition own_record (db : Store) (gamename : string)
    (pid region category : Z) : Row :=
  match fetchone
          (index_scan
             (List.filter (where_mine gamename region category pid) db)) with
  | Some m => m
  | None => default_mine gamename pid category
  end.

(** The [WHERE] clause of the row query and of the count query of a mode;
    [mine_score] is the score of the own row (used by modes 4 and 5). *)
Definition where_peers (mode : Z) (gamename : string)
    (pid region category : Z) (data : Options) (mine_score since : Z)
  : Row -> bool :=
  if mode <? 2 then where_all gamename region category since
  else if mode =? 2 then where_nearby gamename region category pid since
  else if mode =? 3 then
    where_friends gamename region category (dict_get (o_friends data) []) since
  else if mode =? 4 then
    where_nearhi gamename region category pid mine_score since
  else where_nearlo gamename region category pid mine_score since.

(** The [ORDER BY] key of the row query of a mode. *)
Definition peer_key (mode mine_score : Z) : Row -> Z :=
  if mode =? 2 then fun r => Z.abs (mine_score - r_score r) else r_score.

(** The [LIMIT] of the row query of a mode, if it has one. *)
Definition peer_bound (mode : Z) (data : Options) : option Z :=
  if mode =? 0 then
    if truthy (dict_get (o_limit data) 0)
    then Some (dict_get (o_limit data) 0) else None
  else if mode =? 1 then Some (dict_get (o_limit data) 10)
  else Some (dict_get (o_limit data) 10 - 1).

Definition apply_bound (bound : option Z) (rows : list Row) : list Row :=
  match bound with
  | Some n => sql_limit n rows
  | None => rows
  end.

(** The rows of a result that come from the row query: all of them in
    modes 0 and 1, all but the leading "mine" in modes 2 to 5. *)
Definition peer_rows (mode : Z) (rows : list Row) : list Row :=
  if mode <? 2 then rows else tl rows.

(** * The write path, the blob store and the schema

    The rest of the module: [dict_factory], [init], [root_download],
    [root_upload] and [web_put2].  The module-level functions of the same
    names open a connection on the database file, call the method and
    close the connection; they are the methods applied to the database the
    file holds.

    Further conventions.
    - A table is the list of its rows in rowid order, together with a flag
      telling whether its unique index exists.  A new row gets the highest
      rowid and so goes to the end of the list.
    - [CREATE TABLE IF NOT EXISTS] and [CREATE UNIQUE INDEX IF NOT EXISTS]
      do nothing when the table or the index is there; building a unique
      index over rows that repeat a key fails with [IntegrityError].  Data
      definition statements take effect one by one, so a failing statement
      keeps the effect of the statements before it.
    - [INSERT OR REPLACE] deletes the rows that clash with the new row on
      the unique index, if there is one, and then inserts the new row.
    - A statement on a missing table fails with [OperationalError]
      ("no such table"). *)

(** A row of the [storage] table. *)
Record Blob : Type := mkBlob {
  s_gamename : string;
  s_pid : Z;
  s_region : string;
  s_data : string;
  s_updated : Z
}.

Record Table (A : Type) : Type := mkTable {
  t_rows : list A;
  t_unique : bool
}.

Arguments mkTable {A} t_rows t_unique.
Arguments t_rows {A} t.
Arguments t_unique {A} t.

(** The database file: each of the two tables may be missing. *)
Record Database : Type := mkDatabase {
  storage : option (Table Blob);
  ranking : option (Table Row)
}.

(** A database file that has just been created. *)
Definition empty_database : Database := mkDatabase None None.

Inductive sql_error : Type :=
| NoSuchTable (name : string)     (* sqlite3.OperationalError *)
| UniqueFailed (index : string).  (* sqlite3.IntegrityError *)

(** Equality on the columns of [idx_unique_storage]:
    [(gamename, pid, region)]. *)
Definition same_storage_key (a b : Blob) : bool :=
  (s_gamename a =? s_gamename b)%string && (s_pid a =? s_pid b)
  && (s_region a =? s_region b)%string.

(** Equality on the columns of [idx_unique_ranking]:
    [(gamename, pid, region, category)]. *)
Definition same_ranking_key (a b : Row) : bool :=
  (r_gamename a =? r_gamename b)%string && (r_pid a =? r_pid b)
  && (r_region a =? r_region b) && (r_category a =? r_category b).

Section Tables.
Context {A : Type}.
Variable same_key : A -> A -> bool.

(** No two rows of the list agree on the key. *)
Fixpoint distinct_keys (rows : list A) : bool :=
  match rows with
  | [] => true
  | x :: rows' => negb (existsb (same_key x) rows') && distinct_keys rows'
  end.

(** [CREATE TABLE IF NOT EXISTS] *)
Definition create_table (t : option (Table A)) : Table A :=
  match t with
  | Some t => t
  | None => mkTable [] false
  end.

(** [CREATE UNIQUE INDEX IF NOT EXISTS name ON ...] *)
Definition create_unique_index (name : string) (t : Table A)
  : sql_error + Table A :=
  if t_unique t then inr t
  else if distinct_keys (t_rows t) then inr (mkTable (t_rows t) true)
  else inl (UniqueFailed name).

(** [INSERT OR REPLACE INTO ... VALUES (...)] *)
Definition insert_or_replace (t : Table A) (new : A) : Table A :=
  if t_unique t
  then mkTable
         (List.filter (fun old => negb (same_key old new)) (t_rows t)
          ++ [new])%list
         true
  else mkTable (t_rows t ++ [new])%list false.
End Tables.

(** [init(path)]: the database at [path] after the call, and the error the
    call raised, if any. *)
Definition init (db : Database) : option sql_error * Database :=
  let storage_table := create_table (storage db) in
  match create_unique_index same_storage_key "idx_unique_storage"
          storage_table with
  | inl e => (Some e, mkDatabase (Some storage_table) (ranking db))
  | inr storage_table =>
      let ranking_table := create_table (ranking db) in
      match create_unique_index same_ranking_key "idx_unique_ranking"
              ranking_table with
      | inl e =>
          (Some e, mkDatabase (Some storage_table) (Some ranking_table))
      | inr ranking_table =>
          (None, mkDatabase (Some storage_table) (Some ranking_table))
      end
  end.

(** [GamestatsDatabase.root_download(gamename, pid, region)] *)
Definition root_download (db : Database) (gamename : string) (pid : Z)
    (region : string) : sql_error + option Blob :=
  match storage db with
  | None => inl (NoSuchTable "storage")
  | Some t =>
      inr (hd_error
             (List.filter
                (fun b => (s_gamename b =? gamename)%string
                          && (s_pid b =? pid)
                          && (s_region b =? region)%string)
                (t_rows t)))
  end.

(** [GamestatsDatabase.root_upload(gamename, pid, region, data)]; [now] is
    [datetime.now()]. *)
Definition root_upload (db : Database) (now : Z) (gamename : string)
    (pid : Z) (region : string) (data : string) : sql_error + Database :=
  match storage db with
  | None => inl (NoSuchTable "storage")
  | Some t =>
      inr (mkDatabase
             (Some (insert_or_replace same_storage_key t
                      (mkBlob gamename pid region data now)))
             (ranking db))
  end.

(** [GamestatsDatabase.web_put2(gamename, pid, region, category, score,
    data)]; [now] is [datetime.now()]. *)
Definition web_put2 (db : Database) (now : Z) (gamename : string)
    (pid region category score : Z) (data : string)
  : sql_error + Database :=
  match ranking db with
  | None => inl (NoSuchTable "ranking")
  | Some t =>
      inr (mkDatabase
             (storage db)
             (Some (insert_or_replace same_ranking_key t
                      (mkRow gamename pid region category score data now))))
  end.

(** ** [dict_factory] *)

(** A value of a result row. *)
Inductive sqlval : Type :=
| SqlInt (z : Z)
| SqlText (s : string)
| SqlTime (t : Z)
| SqlNull.

(** A Python dictionary with text keys: its items in insertion order. *)
Definition pydict : Type := list (string * sqlval).

(** [d[key] = v]: an existing key keeps its place and gets the new value,
    a new key goes to the end. *)
Fixpoint dict_setitem (d : pydict) (key : string) (v : sqlval) : pydict :=
  match d with
  | [] => [(key, v)]
  | (k, w) :: d' =>
      if (k =? key)%string then (k, v) :: d'
      else (k, w) :: dict_setitem d' key v
  end.

(** [d.get(key)] *)
Fixpoint dict_lookup (d : pydict) (key : string) : option sqlval :=
  match d with
  | [] => None
  | (k, w) :: d' => if (k =? key)%string then Some w else dict_lookup d' key
  end.

(** The loop of [dict_factory] from index [idx] on: [description] holds
    the names [col[0]] of the remaining columns.  [None] stands for the
    [IndexError] of [row[idx]]. *)
Fixpoint dict_factory_from (idx : nat) (description : list string)
    (row : list sqlval) (d : pydict) : option pydict :=
  match description with
  | [] => Some d
  | col :: description' =>
      match nth_error row idx with
      | Some v =>
          dict_factory_from (S idx) description' row (dict_setitem d col v)
      | None => None
      end
  end.

(** [dict_factory(cursor, row)], with [description] the column names of
    [cursor.description]. *)
Definition dict_factory (description : list string) (row : list sqlval)
  : option pydict :=
  dict_factory_from 0 description row [].

(** The columns of [ranking] as [init] declares them, the tuple SQLite
    hands over for a row, and the dictionary [get2_dictrow] builds. *)
Definition ranking_columns : list string :=
  ["gamename"; "pid"; "region"; "category"; "score"; "data"; "updated"].

Definition row_values (r : Row) : list sqlval :=
  [SqlText (r_gamename r); SqlInt (r_pid r); SqlInt (r_region r);
   SqlInt (r_category r); SqlInt (r_score r); SqlText (r_data r);
   SqlTime (r_updated r)].

Definition row_items (r : Row) : pydict :=
  [("gamename", SqlText (r_gamename r)); ("pid", SqlInt (r_pid r));
   ("region", SqlInt (r_region r)); ("category", SqlInt (r_category r));
   ("score", SqlInt (r_score r)); ("data", SqlText (r_data r));
   ("updated", SqlTime (r_updated r))].


(** A populated database for the examples: the demo scores, and two saved
    blobs under the keys of players 8 and 7. *)
Definition demo_blob : Blob := mkBlob "demo" 7 "eu" "save" 1700000000000000.

Definition demo_database : Database :=
  mkDatabase
    (Some (mkTable [mkBlob "demo" 8 "eu" "other" 1699999999000000; demo_blob]
             true))
    (Some (mkTable demo_store true)).
(** * Properties *)

Open Scope list_scope.

(** ** Sorting, limiting and filtering *)

Section SortingFacts.
Variable before : Row -> Row -> bool.
Hypothesis before_total : forall x y, before x y = false -> before y x = true.
Hypothesis before_trans :
  forall x y z, before x y = true -> before y z = true -> before x z = true.

Lemma insert_row_perm (x : Row) (l : list Row) :
  Permutation (insert_row before x l) (x :: l).
Proof.
  induction l as [|y l IH]; simpl.
  - apply Permutation_refl.
  - destruct (before x y).
    + apply Permutation_refl.
    + apply Permutation_trans with (y :: x :: l).
      * apply perm_skip, IH.
      * apply perm_swap.
Qed.

Lemma stable_sort_perm (l : list Row) : Permutation (stable_sort before l) l.
Proof.
  induction l as [|x l IH]; simpl.
  - apply perm_nil.
  - apply Permutation_trans with (x :: stable_sort before l).
    + apply insert_row_perm.
    + apply perm_skip, IH.
Qed.

Lemma insert_row_sorted (x : Row) (l : list Row) :
  StronglySorted (fun a b => before a b = true) l ->
StronglySorted (fun a b => before a b = true) (insert_row before x l).
Proof.
  induction l as [|y l IH]; intros Hs; simpl.
  - constructor; constructor.
  - inversion Hs as [|? ? Hl Hy]; subst.
    destruct (before x y) eqn:Hxy.
    + constructor; [exact Hs|].
      constructor; [exact Hxy|].
      rewrite Forall_forall in *. intros z Hz.
      apply before_trans with y; [exact Hxy | apply Hy, Hz].
    + constructor; [apply IH, Hl|].
      rewrite Forall_forall in *. intros z Hz.
      apply (Permutation_in _ (insert_row_perm x l)) in Hz.
      destruct Hz as [<-|Hz]; [apply before_total, Hxy | apply Hy, Hz].
Qed.

Lemma stable_sort_sorted (l : list Row) :
StronglySorted (fun a b => before a b = true) (stable_sort before l).
Proof.
  induction l as [|x l IH]; simpl.
  - constructor.
  - apply insert_row_sorted, IH.
Qed.
End SortingFacts.

Lemma stable_sort_length (before : Row -> Row -> bool) (l : list Row) :
  List.length (stable_sort before l) = List.length l.
Proof. apply Permutation_length, stable_sort_perm. Qed.

Lemma stable_sort_In (before : Row -> Row -> bool) (l : list Row) (r : Row) :
  In r (stable_sort before l) <-> In r l.
Proof.
  split; apply Permutation_in;
    [|apply Permutation_sym]; apply stable_sort_perm.
Qed.

Lemma key_before_total (key : Row -> Z) (reverse : bool) (x y : Row) :
  key_before key reverse x y = false -> key_before key reverse y x = true.
Proof. unfold key_before; destruct reverse; lia. Qed.

Lemma key_before_trans (key : Row -> Z) (reverse : bool) (x y z : Row) :
  key_before key reverse x y = true -> key_before key reverse y z = true ->
  key_before key reverse x z = true.
Proof. unfold key_before; destruct reverse; lia. Qed.

Lemma sorted_weaken (R R' : Row -> Row -> Prop) (l : list Row) :
  (forall x y, R x y -> R' x y) -> StronglySorted R l -> Sorted R' l.
Proof.
  intros HR Hs. apply StronglySorted_Sorted.
  induction Hs as [|x l Hl IH Hx]; constructor.
  - exact IH.
  - eapply Forall_impl; [|exact Hx]. intros y; apply HR.
Qed.

Lemma sort_up_ascending (l : list Row) :
  ascending (stable_sort (key_before r_score false) l).
Proof.
  eapply sorted_weaken;
    [|apply stable_sort_sorted;
      [apply key_before_total | apply key_before_trans]].
  unfold key_before. intros x y H. simpl in H. lia.
Qed.

Lemma sort_down_descending (l : list Row) :
  descending (stable_sort (key_before r_score true) l).
Proof.
  eapply sorted_weaken;
    [|apply stable_sort_sorted;
      [apply key_before_total | apply key_before_trans]].
  unfold key_before. intros x y H. simpl in H. lia.
Qed.

(** ** The two sort directions (C1) *)

(** C1, as amended.  The direction of the store's [ORDER BY score] and the
    direction of the in-memory sort of [sort_rows] agree when the option
    "filter" is 1 (both descending) and when it is 0 (both ascending).
    When "filter" is absent, or is any other value, the store query gets no
    direction modifier and sorts ascending, while the in-memory sort is
    descending.  In every case the merged list starts with "mine". *)
Theorem C1_sort_directions (data : Options) (rows : list Row) (mine : Row) :
  let fetched := sql_order_by r_score (FILTERS_get (o_filter data)) rows in
  let merged := sort_rows data rows (Some mine) in
  hd_error merged = Some mine /\
  match o_filter data with
  | Some 1 => descending fetched /\ descending (tl merged)
  | Some 0 => ascending fetched /\ ascending (tl merged)
  | _ => ascending fetched /\ descending (tl merged)
  end.
Proof.
  unfold sort_rows, sql_order_by, list_sort.
  destruct (o_filter data) as [[|[p|p|]|p]|]; simpl;
    repeat split;
    first [apply sort_up_ascending | apply sort_down_descending].
Qed.

(** C1, counterexample to the claim as stated: with no "filter" option the
    store-level order is ascending, not descending.  On the demo store the
    [ORDER BY] stage yields the scores 30, 50, 80, mode 1 returns them in
    that order, and the in-memory sort yields 80, 50, 30. *)
Lemma C1_absent_filter_store_ascending :
  o_filter no_options = None /\
  map r_score
    (sql_order_by r_score (FILTERS_get (o_filter no_options)) demo_store)
  = [30; 50; 80] /\
  ~ descending
      (sql_order_by r_score (FILTERS_get (o_filter no_options)) demo_store) /\
  (exists total rows,
      retrieve demo_store demo_now "demo" 7 1 0 1 no_options
      = Return (total, rows) /\ map r_score rows = [30; 50; 80]) /\
  map r_score (tl (sort_rows no_options demo_store (Some (demo_row 7 50))))
  = [80; 50; 30].
Proof.
  split; [reflexivity|]. split; [reflexivity|]. split; [|split].
  - change (sql_order_by r_score (FILTERS_get (o_filter no_options))
              demo_store)
      with [demo_row 9 30; demo_row 7 50; demo_row 8 80].
    intros H. inversion H as [|? ? _ Hd]; subst.
    inversion Hd as [|? ? Hle]; subst. simpl in Hle. lia.
  - eexists _, _. split; reflexivity.
  - reflexivity.
Qed.

(** ** The order of the index *)

Lemma index_before_total (x y : Row) :
  index_before x y = false -> index_before y x = true.
Proof.
  unfold index_before.
  rewrite !orb_false_iff, !andb_false_iff, !orb_true_iff, !andb_true_iff,
    !orb_false_iff, !andb_false_iff, !orb_true_iff, !andb_true_iff.
  rewrite !Z.ltb_lt, !Z.eqb_eq, !Z.leb_le, !Z.ltb_ge, !Z.eqb_neq, !Z.leb_gt.
  lia.
Qed.

Lemma index_before_trans (x y z : Row) :
  index_before x y = true -> index_before y z = true ->
  index_before x z = true.
Proof.
  unfold index_before.
  rewrite !orb_true_iff, !andb_true_iff, !orb_true_iff, !andb_true_iff.
  rewrite !Z.ltb_lt, !Z.eqb_eq, !Z.leb_le.
  lia.
Qed.

Lemma index_before_region (x y : Row) :
  index_before x y = true -> r_pid x = r_pid y -> r_region x <= r_region y.
Proof.
  unfold index_before.
  rewrite !orb_true_iff, !andb_true_iff, !orb_true_iff, !andb_true_iff.
  rewrite !Z.ltb_lt, !Z.eqb_eq, !Z.leb_le.
  lia.
Qed.

Lemma index_scan_perm (l : list Row) : Permutation (index_scan l) l.
Proof. apply stable_sort_perm. Qed.

Lemma index_scan_In (l : list Row) (r : Row) : In r (index_scan l) <-> In r l.
Proof. apply stable_sort_In. Qed.

Lemma index_scan_length (l : list Row) :
  List.length (index_scan l) = List.length l.
Proof. apply stable_sort_length. Qed.

(** ** All modes at once *)

Lemma mode_cases (mode : Z) :
  0 <= mode <= 5 ->
  mode = 0 \/ mode = 1 \/ mode = 2 \/ mode = 3 \/ mode = 4 \/ mode = 5.
Proof. lia. Qed.

Ltac each_mode H :=
  apply mode_cases in H;
  destruct H as [H|[H|[H|[H|[H|H]]]]]; subst.

(** A successful call, mode by mode, in one formula. *)
Lemma retrieve_uniform (db : Store) (now : Z) (gamename : string)
    (pid region category mode : Z) (data : Options) (since : Z) :
  resolve_since now data = Return since ->
  0 <= mode <= 5 ->
  let mine := own_record db gamename pid region category in
  let matching :=
    List.filter
      (where_peers mode gamename pid region category data (r_score mine) since)
      db in
  retrieve db now gamename pid region category mode data =
  Return
    (sql_count matching,
     sort_rows data
       (apply_bound (peer_bound mode data)
          (sql_order_by (peer_key mode (r_score mine))
             (FILTERS_get (o_filter data)) (index_scan matching)))
       (if mode <? 2 then None else Some mine)).
Proof.
  intros Hsince Hmode. unfold retrieve, web_get2. rewrite Hsince.
  each_mode Hmode; try reflexivity.
  unfold web_get2_own, peer_bound, run. simpl.
  destruct (truthy (dict_get (o_limit data) 0)); reflexivity.
Qed.

(** A call whose cutoff cannot be computed raises before anything else
    happens. *)
Lemma retrieve_overflow (db : Store) (now : Z) (gamename : string)
    (pid region category mode : Z) (data : Options) (e : exn) :
  resolve_since now data = Raise e ->
  e = OverflowError /\
  web_get2 db now gamename pid region category mode data
  = (data, raise OverflowError) /\
  retrieve db now gamename pid region category mode data
  = Raise OverflowError /\
  issued db now gamename pid region category mode data = [].
Proof.
  intros Hsince.
  assert (He : e = OverflowError).
  { unfold resolve_since, timedelta_minutes, datetime_sub in Hsince.
    repeat match type of Hsince with
      | context [if ?b then _ else _] => destruct b
      end; simpl in Hsince; congruence. }
  subst e. unfold retrieve, issued, web_get2. rewrite Hsince.
  repeat split.
Qed.

Lemma filter_skip (p : Row -> bool) (l1 l2 : list Row) (x : Row) :
  p x = false ->
  List.filter p (l1 ++ x :: l2) = List.filter p (l1 ++ l2).
Proof.
  intros Hx. rewrite !filter_app. simpl. rewrite Hx. reflexivity.
Qed.

Lemma sql_limit_In (n : Z) (l : list Row) (r : Row) :
  In r (sql_limit n l) -> In r l.
Proof.
  unfold sql_limit. destruct (n <? 0); [auto|]. intros H.
  rewrite <- (firstn_skipn (Z.to_nat n) l). apply in_or_app. left. exact H.
Qed.

Lemma sql_limit_length (n : Z) (l : list Row) :
  0 <= n -> Z.of_nat (List.length (sql_limit n l)) <= n.
Proof.
  intros Hn. unfold sql_limit.
  destruct (n <? 0) eqn:E; [lia|].
  pose proof (firstn_le_length (Z.to_nat n) l). lia.
Qed.

Lemma apply_bound_In (bound : option Z) (l : list Row) (r : Row) :
  In r (apply_bound bound l) -> In r l.
Proof. destruct bound; simpl; [apply sql_limit_In | auto]. Qed.

Lemma sort_rows_peers (data : Options) (l : list Row) (mode : Z) (mine : Row)
    (r : Row) :
  In r (peer_rows mode
          (sort_rows data l (if mode <? 2 then None else Some mine))) ->
  In r l.
Proof.
  unfold peer_rows, sort_rows, list_sort.
  destruct (mode <? 2); [auto|].
  destruct (truthy _); simpl; apply stable_sort_In.
Qed.

Lemma sort_rows_length (data : Options) (l : list Row) (mine : Row) :
  List.length (sort_rows data l (Some mine)) = S (List.length l).
Proof.
  unfold sort_rows, list_sort.
  destruct (truthy _); simpl; rewrite stable_sort_length; reflexivity.
Qed.

(** Every row the row query of a mode hands back satisfies the mode's
    [WHERE] clause and is a row of the table. *)
Lemma peers_satisfy_where (db : Store) (p : Row -> bool) (key : Row -> Z)
    (dir : string) (bound : option Z) (data : Options) (mode : Z)
    (mine r : Row) :
  In r (peer_rows mode
          (sort_rows data
             (apply_bound bound
                (sql_order_by key dir (index_scan (List.filter p db))))
             (if mode <? 2 then None else Some mine))) ->
  In r db /\ p r = true.
Proof.
  intros H. apply sort_rows_peers, apply_bound_In in H.
  unfold sql_order_by in H.
  apply stable_sort_In, index_scan_In, filter_In in H. exact H.
Qed.

(** The own row: either no row of the table passes the lookup and the own
    row is the default row, or it is a row of the table that passes the
    lookup and has the least region among those that do. *)
Lemma own_record_cases (db : Store) (gamename : string)
    (pid region category : Z) :
  let mine := own_record db gamename pid region category in
  (mine = default_mine gamename pid category /\
   forall r, In r db -> where_mine gamename region category pid r = false)
  \/
  (In mine db /\ where_mine gamename region category pid mine = true /\
   forall r, In r db -> where_mine gamename region category pid r = true ->
             r_region mine <= r_region r).
Proof.
  intros mine. subst mine. unfold own_record.
  set (found := List.filter (where_mine gamename region category pid) db).
  pose proof (index_scan_perm found) as Hperm.
  pose proof (stable_sort_sorted index_before index_before_total
                index_before_trans found) as Hsorted.
  fold (index_scan found) in Hsorted.
  destruct (index_scan found) as [|m rest] eqn:E; simpl.
  - left. split; [reflexivity|]. intros r Hr.
    destruct (where_mine gamename region category pid r) eqn:Er;
      [|reflexivity].
    exfalso.
    assert (Hin : In r found) by (apply filter_In; tauto).
    apply (Permutation_in _ (Permutation_sym Hperm)) in Hin. exact Hin.
  - right.
    assert (Hm : In m found)
      by (apply (Permutation_in _ Hperm); now left).
    apply filter_In in Hm. destruct Hm as [Hm Hlookup].
    split; [exact Hm|]. split; [exact Hlookup|].
    intros r Hr Hr'.
    assert (Hin : In r (m :: rest)).
    { apply (Permutation_in _ (Permutation_sym Hperm)), filter_In. tauto. }
    destruct Hin as [<-|Hin]; [lia|].
    inversion Hsorted as [|? ? _ Hall]; subst.
    rewrite Forall_forall in Hall.
    apply index_before_region; [apply Hall, Hin|].
    unfold where_mine in Hlookup, Hr'.
    rewrite !andb_true_iff in Hlookup, Hr'. lia.
Qed.

(** A row that neither the own-record lookup nor the mode's [WHERE]
    clause selects can be taken out of the table without changing the
    result. *)
Lemma retrieve_skip (db1 db2 : Store) (x : Row) (now : Z) (gamename : string)
    (pid region category mode : Z) (data : Options) (since : Z) :
  resolve_since now data = Return since ->
  0 <= mode <= 5 ->
  (2 <= mode -> where_mine gamename region category pid x = false) ->
  (forall mine_score,
      where_peers mode gamename pid region category data mine_score
        since x = false) ->
  retrieve (db1 ++ x :: db2) now gamename pid region category mode data =
  retrieve (db1 ++ db2) now gamename pid region category mode data.
Proof.
  intros Hsince Hmode Hmine Hpeer.
  assert (Hsame : (mode <? 2) = false ->
                  own_record (db1 ++ x :: db2) gamename pid region category
                  = own_record (db1 ++ db2) gamename pid region category).
  { intros E. unfold own_record. rewrite filter_skip; [reflexivity|].
    apply Hmine. lia. }
  rewrite !(retrieve_uniform _ _ _ _ _ _ _ _ _ Hsince Hmode). cbv zeta.
  destruct (mode <? 2) eqn:E.
  - assert (Hw : forall s1 s2 s,
               where_peers mode gamename pid region category data s1 s
               = where_peers mode gamename pid region category data s2 s).
    { intros. unfold where_peers. rewrite E. reflexivity. }
    assert (Hk : forall s1 s2, peer_key mode s1 = peer_key mode s2).
    { intros. unfold peer_key.
      destruct (mode =? 2) eqn:E2; [lia | reflexivity]. }
    rewrite (Hw _ 0), (Hk _ 0).
    rewrite (Hw (r_score (own_record (db1 ++ db2) _ _ _ _)) 0).
    rewrite (Hk (r_score (own_record (db1 ++ db2) _ _ _ _)) 0).
    rewrite filter_skip by apply Hpeer. reflexivity.
  - rewrite Hsame by reflexivity.
    rewrite filter_skip by apply Hpeer. reflexivity.
Qed.

(** ** Friends mode with no friends (C2) *)

Lemma filter_none (p : Row -> bool) (l : list Row) :
  (forall r, p r = false) -> List.filter p l = [].
Proof.
  intros Hp. induction l as [|x l IH]; simpl; [|rewrite Hp]; auto.
Qed.


Lemma sql_limit_nil (n : Z) : sql_limit n [] = [].
Proof. unfold sql_limit. destruct (n <? 0); [|destruct (Z.to_nat n)]; auto. Qed.

(** C2, as amended.  In mode 3 with an empty (or absent) friend list a
    call whose cutoff can be computed (the option "updated" is absent or
    zero, or [now] minus that many minutes is a [datetime]) raises nothing
    and returns total 0 and no peer row: the rows are the own row alone.
    The engine has no special case for the empty list: it issues its three
    usual statements, and the two that carry the friend list read
    [pid IN ()], which the store accepts and which holds for no row. *)
Theorem C2_empty_friend_list (db : Store) (now : Z) (gamename : string)
    (pid region category : Z) (data : Options) (since : Z) :
  resolve_since now data = Return since ->
  dict_get (o_friends data) [] = [] ->
  retrieve db now gamename pid region category 3 data
  = Return (0, [own_record db gamename pid region category]) /\
  issued db now gamename pid region category 3 data
  = [ ("SELECT * FROM ranking"
       ++ " WHERE gamename = ? AND region & ? AND category = ?"
       ++ " AND pid = ?")%string;
      ("SELECT * FROM ranking"
       ++ " WHERE gamename = ? AND region = ? AND category = ?"
       ++ " AND pid IN () AND updated >= ?"
       ++ " ORDER BY score " ++ FILTERS_get (o_filter data)
       ++ " LIMIT ?")%string;
      ("SELECT COUNT(*) AS total FROM ranking"
       ++ " WHERE gamename = ? AND region = ? AND category = ?"
       ++ " AND pid IN () AND updated >= ?")%string ].
Proof.
  intros Hsince Hfriends. split.
  - rewrite (retrieve_uniform _ _ _ _ _ _ _ _ _ Hsince) by lia. cbv zeta.
    rewrite filter_none.
    + unfold sql_order_by, peer_bound, sort_rows, list_sort, index_scan.
      simpl.
      rewrite sql_limit_nil. destruct (truthy _); reflexivity.
    + intros r. unfold where_peers, where_friends. simpl.
      rewrite Hfriends. simpl.
      rewrite andb_false_r. reflexivity.
  - unfold issued, web_get2. rewrite Hsince.
    unfold web_get2_friends, select_mine, run, bind,
      execute, getitem_since, ret, friends_list_text.
    simpl. rewrite Hfriends. reflexivity.
Qed.

Lemma C2_empty_friend_list_witness :
  resolve_since demo_now (with_friends []) = Return 0 /\
  dict_get (o_friends (with_friends [])) [] = [] /\
  retrieve demo_store demo_now "demo" 7 1 0 3 (with_friends [])
  = Return (0, [own_record demo_store "demo" 7 1 0]).
Proof.
  split; [reflexivity|]. split; [reflexivity|].
  apply (C2_empty_friend_list demo_store demo_now "demo" 7 1 0
           (with_friends []) 0); reflexivity.
Defined.

(** C2, counterexample to the claim as stated: the empty friend list is
    not special-cased.  With [friends = []] the row query is issued all the
    same and its text contains the empty list [pid IN ()]. *)
Lemma C2_empty_in_list_is_issued :
  In ("SELECT * FROM ranking"
      ++ " WHERE gamename = ? AND region = ? AND category = ?"
      ++ " AND pid IN () AND updated >= ?"
      ++ " ORDER BY score  LIMIT ?")%string
     (issued demo_store demo_now "demo" 7 1 0 3 (with_friends [])) /\
  List.length (issued demo_store demo_now "demo" 7 1 0 3 (with_friends []))
  = 3%nat.
Proof. split; [right; left|]; reflexivity. Qed.

(** ** The time window (C3) *)

Lemma where_peers_fresh (mode : Z) (gamename : string)
    (pid region category : Z) (data : Options) (mine_score since : Z)
    (r : Row) :
  where_peers mode gamename pid region category data mine_score since r = true ->
  since <= r_updated r.
Proof.
  unfold where_peers, where_all, where_nearby, where_friends, where_nearhi,
    where_nearlo.
  repeat match goal with |- context [if ?b then _ else _] => destruct b end;
    rewrite !andb_true_iff; intros H; decompose [and] H; lia.
Qed.

(** C3, as amended.  Take a call in a mode 0..5 whose cutoff [since] can
    be computed.  The call succeeds; every row that comes from the row
    query (all rows in modes 0 and 1, all rows after the leading "mine" in
    modes 2 to 5) was updated at or after [since]; and the total is the
    number of rows of the table picked by a condition that no record
    updated strictly before [since] satisfies, so that no such record is
    counted, in any mode and whoever it belongs to (the condition is the
    [WHERE] clause of the mode's count query).  Moreover a record
    updated strictly before [since] has no effect on the result at all
    unless, in modes 2 to 5, it is a record of the requester: the
    own-record lookup of those modes applies no time window, so "mine" may
    be older than the cutoff. *)
Theorem C3_time_window (db : Store) (now : Z) (gamename : string)
    (pid region category mode : Z) (data : Options) (since : Z) :
  resolve_since now data = Return since ->
  0 <= mode <= 5 ->
  let counted :=
    where_peers mode gamename pid region category data
      (r_score (own_record db gamename pid region category)) since in
  (exists total rows,
      retrieve db now gamename pid region category mode data
      = Return (total, rows) /\
      (forall r, In r (peer_rows mode rows) -> since <= r_updated r) /\
      total = Z.of_nat (List.length (List.filter counted db)) /\
      (forall r, r_updated r < since -> counted r = false)) /\
  (forall db1 db2 x,
      db = db1 ++ x :: db2 ->
      r_updated x < since ->
      (2 <= mode -> r_pid x <> pid) ->
      retrieve db now gamename pid region category mode data
      = retrieve (db1 ++ db2) now gamename pid region category mode data).
Proof.
  intros Hsince Hmode counted. split.
  - eexists _, _.
    split; [apply (retrieve_uniform _ _ _ _ _ _ _ _ _ Hsince Hmode)|].
    split; [|split; [reflexivity|]].
    + intros r Hr. apply peers_satisfy_where in Hr.
      destruct Hr as [_ Hr]. eapply where_peers_fresh, Hr.
    + intros r Hstale. destruct (counted r) eqn:E; [|reflexivity].
      apply where_peers_fresh in E. lia.
  - intros db1 db2 x -> Hstale Hpid.
    apply (retrieve_skip _ _ _ _ _ _ _ _ _ _ _ Hsince Hmode).
    + intros H2. unfold where_mine.
      destruct (r_pid x =? pid) eqn:E; [apply Hpid in H2; lia|].
      apply andb_false_r.
    + intros s.
      destruct (where_peers mode gamename pid region category data s
                  since x) eqn:E; [|reflexivity].
      apply where_peers_fresh in E. lia.
Qed.

Lemma C3_time_window_witness :
  resolve_since demo_now last_minute = Return 1700000000000000 /\
  0 <= 3 <= 5 /\
  exists total rows,
    retrieve (stale_row :: demo_store) demo_now "demo" 7 1 0 3
      (mkOptions (Some 1) None None (Some [7; 8]) None)
    = Return (total, rows) /\
    (forall r, In r (peer_rows 3 rows) -> 1700000000000000 <= r_updated r) /\
    total
    = Z.of_nat
        (List.length
           (List.filter
              (where_peers 3 "demo" 7 1 0
                 (mkOptions (Some 1) None None (Some [7; 8]) None)
                 (r_score (own_record (stale_row :: demo_store) "demo" 7 1 0))
                 1700000000000000)
              (stale_row :: demo_store))) /\
    (forall r, r_updated r < 1700000000000000 ->
               where_peers 3 "demo" 7 1 0
                 (mkOptions (Some 1) None None (Some [7; 8]) None)
                 (r_score (own_record (stale_row :: demo_store) "demo" 7 1 0))
                 1700000000000000 r = false).
Proof.
  split; [reflexivity|]. split; [lia|].
  apply (C3_time_window (stale_row :: demo_store) demo_now "demo" 7 1 0 3
           (mkOptions (Some 1) None None (Some [7; 8]) None)
           1700000000000000); [reflexivity | lia].
Defined.

(** C3, counterexample to the claim as stated: in mode 2 the "mine" row
    is returned although it was updated strictly before the cutoff. *)
Lemma C3_stale_mine_returned :
  resolve_since demo_now last_minute = Return 1700000000000000 /\
  retrieve stale_store demo_now "demo" 7 1 0 2 last_minute
  = Return (1, [stale_row; demo_row 8 80]) /\
  r_updated stale_row < 1700000000000000.
Proof. split; [|split]; reflexivity. Qed.

(** ** The nearby scenario (C4) *)

(** C4, as amended.  On the demo store a mode 2 call for pid 7 with limit 3
    selects the two peers by score distance and then re-sorts them by score
    before "mine" is put in front.  With "filter" absent, 1, or any value
    other than 0 the rows are mine, pid 8 (score 80), pid 9 (score 30);
    only with "filter" 0 are they mine, pid 9, pid 8.  The total is 2. *)
Theorem C4_nearby_scenario (now : Z) (flt : option Z) :
  retrieve demo_store now "demo" 7 1 0 2
    (mkOptions None (Some 3) flt None None)
  = Return (2, if truthy (dict_get flt 1)
               then [demo_row 7 50; demo_row 8 80; demo_row 9 30]
               else [demo_row 7 50; demo_row 9 30; demo_row 8 80]).
Proof. destruct flt as [[|[p|p|]|p]|]; reflexivity. Qed.

(** C4, counterexample to the claim as stated: with the options of the
    scenario (limit 3, no "filter") the peers come back as pid 8 then
    pid 9, not pid 9 then pid 8. *)
Lemma C4_peers_resorted_by_score :
  retrieve demo_store demo_now "demo" 7 1 0 2 (with_limit 3)
  = Return (2, [demo_row 7 50; demo_row 8 80; demo_row 9 30]) /\
  forall total,
    retrieve demo_store demo_now "demo" 7 1 0 2 (with_limit 3)
    <> Return (total, [demo_row 7 50; demo_row 9 30; demo_row 8 80]).
Proof.
  split; [reflexivity|]. intros total H. vm_compute in H. discriminate H.
Qed.

(** ** The row limit (C5) *)

Lemma apply_bound_length (bound : option Z) (l : list Row) :
  match bound with
  | Some n =>
      if n <? 0
      then List.length (apply_bound bound l) = List.length l
      else Z.of_nat (List.length (apply_bound bound l)) <= n
  | None => List.length (apply_bound bound l) = List.length l
  end.
Proof.
  destruct bound as [n|]; simpl; [|reflexivity].
  destruct (n <? 0) eqn:E.
  - unfold sql_limit. rewrite E. reflexivity.
  - apply sql_limit_length. lia.
Qed.

(** C5, as amended.  Take a call in a mode 0..5 whose cutoff can be
    computed, and write [limit] for the option "limit" (10 when absent).
    In mode 1 with [limit >= 0], in modes 2 to 5 with [limit >= 1], and in
    mode 0 with an explicit [limit >= 1], the rows returned are at most
    [limit]; in modes 2 to 5 one slot is taken by "mine" and the row query
    fetches at most [limit - 1] peers.  There is no floor and mode 0 has no
    default: mode 0 with the limit absent, 0 or negative, mode 1 with a
    negative limit, and modes 2 to 5 with [limit <= 0] (the query is then
    limited by the negative number [limit - 1]) fetch every matching row,
    so that as many rows are fetched as the total counts. *)
Theorem C5_row_limit (db : Store) (now : Z) (gamename : string)
    (pid region category mode : Z) (data : Options) (since : Z) :
  resolve_since now data = Return since ->
  0 <= mode <= 5 ->
  exists total rows,
    retrieve db now gamename pid region category mode data
    = Return (total, rows) /\
    (mode = 0 -> 0 < dict_get (o_limit data) 0 ->
     Z.of_nat (List.length rows) <= dict_get (o_limit data) 10) /\
    (mode = 1 -> 0 <= dict_get (o_limit data) 10 ->
     Z.of_nat (List.length rows) <= dict_get (o_limit data) 10) /\
    (2 <= mode -> 1 <= dict_get (o_limit data) 10 ->
     Z.of_nat (List.length (tl rows)) <= dict_get (o_limit data) 10 - 1 /\
     Z.of_nat (List.length rows) <= dict_get (o_limit data) 10) /\
    (mode = 0 -> dict_get (o_limit data) 0 <= 0 ->
     Z.of_nat (List.length rows) = total) /\
    (mode = 1 -> dict_get (o_limit data) 10 < 0 ->
     Z.of_nat (List.length rows) = total) /\
    (2 <= mode -> dict_get (o_limit data) 10 <= 0 ->
     Z.of_nat (List.length (tl rows)) = total).
Proof.
  intros Hsince Hmode. eexists _, _.
  split; [apply (retrieve_uniform _ _ _ _ _ _ _ _ _ Hsince Hmode)|].
  set (mine := own_record db gamename pid region category).
  set (matching := List.filter _ db).
  set (ordered := sql_order_by _ _ (index_scan matching)).
  assert (Hord : List.length ordered = List.length matching).
  { subst ordered. unfold sql_order_by.
    rewrite stable_sort_length. apply index_scan_length. }
  pose proof (apply_bound_length (peer_bound mode data) ordered) as Hb.
  set (fetched := apply_bound (peer_bound mode data) ordered) in *.
  clearbody fetched.
  assert (Htl : (mode <? 2) = false ->
                forall l, List.length (tl (sort_rows data l (Some mine)))
                          = List.length l).
  { intros _ l. unfold sort_rows, list_sort.
    destruct (truthy _); simpl; apply stable_sort_length. }
  unfold sql_count.
  repeat match goal with |- _ /\ _ => split end; intros Hm Hl;
    [ | | split | | | ].
  - subst mode. simpl. unfold peer_bound in Hb. simpl in Hb.
    destruct (o_limit data) as [l|]; simpl in *; [|lia].
    unfold truthy in Hb. destruct (l =? 0) eqn:E0; [lia|]. simpl in Hb.
    destruct (l <? 0) eqn:E1; lia.
  - subst mode. simpl. unfold peer_bound in Hb. simpl in Hb.
    destruct (dict_get (o_limit data) 10 <? 0) eqn:E1; lia.
  - assert (E : (mode <? 2) = false) by lia. rewrite E, Htl by exact E.
    unfold peer_bound in Hb.
    assert (E0 : (mode =? 0) = false) by lia.
    assert (E1 : (mode =? 1) = false) by lia.
    rewrite E0, E1 in Hb.
    destruct (dict_get (o_limit data) 10 - 1 <? 0) eqn:E2; lia.
  - assert (E : (mode <? 2) = false) by lia. rewrite E.
    rewrite sort_rows_length.
    unfold peer_bound in Hb.
    assert (E0 : (mode =? 0) = false) by lia.
    assert (E1 : (mode =? 1) = false) by lia.
    rewrite E0, E1 in Hb.
    destruct (dict_get (o_limit data) 10 - 1 <? 0) eqn:E2; lia.
  - subst mode. simpl. unfold peer_bound in Hb. simpl in Hb.
    unfold truthy in Hb.
    destruct (dict_get (o_limit data) 0 =? 0) eqn:E0; simpl in Hb; [lia|].
    destruct (dict_get (o_limit data) 0 <? 0) eqn:E1; lia.
  - subst mode. simpl. unfold peer_bound in Hb. simpl in Hb.
    destruct (dict_get (o_limit data) 10 <? 0) eqn:E1; lia.
  - assert (E : (mode <? 2) = false) by lia. rewrite E, Htl by exact E.
    unfold peer_bound in Hb.
    assert (E0 : (mode =? 0) = false) by lia.
    assert (E1 : (mode =? 1) = false) by lia.
    rewrite E0, E1 in Hb.
    destruct (dict_get (o_limit data) 10 - 1 <? 0) eqn:E2; lia.
Qed.

Lemma C5_row_limit_witness :
  resolve_since demo_now (with_limit 2) = Return 0 /\
  0 <= 2 <= 5 /\
  exists total rows,
    retrieve demo_store demo_now "demo" 7 1 0 2 (with_limit 2)
    = Return (total, rows) /\
    (2 <= 2 -> 1 <= dict_get (o_limit (with_limit 2)) 10 ->
     Z.of_nat (List.length (tl rows))
     <= dict_get (o_limit (with_limit 2)) 10 - 1 /\
     Z.of_nat (List.length rows) <= dict_get (o_limit (with_limit 2)) 10).
Proof.
  split; [reflexivity|]. split; [lia|].
  destruct (C5_row_limit demo_store demo_now "demo" 7 1 0 2 (with_limit 2) 0)
    as (total & rows & Hret & _ & _ & Hpeers & _); [reflexivity | lia|].
  exists total, rows. split; [exact Hret | exact Hpeers].
Defined.

(** C5, counterexample to the claim as stated.  In mode 2 a limit of 0
    makes the peer query unbounded (its limit is -1): three rows come back.
    In mode 0 an absent limit is no limit at all, not 10: all eleven rows
    of an eleven-row table come back. *)
Lemma C5_limit_exceeded :
  (exists total rows,
      retrieve demo_store demo_now "demo" 7 1 0 2 (with_limit 0)
      = Return (total, rows) /\
      List.length rows = 3%nat /\
      dict_get (o_limit (with_limit 0)) 10 = 0) /\
  (exists total rows,
      retrieve eleven_rows demo_now "demo" 7 1 0 0 no_options
      = Return (total, rows) /\
      List.length rows = 11%nat /\
      dict_get (o_limit no_options) 10 = 10).
Proof.
  split; eexists _, _; (split; [reflexivity|]); split; reflexivity.
Qed.

(** ** The total (C6) *)

Lemma leb_shift_hi (a b : Z) : (0 <=? a - b) = (b <=? a).
Proof. destruct (Z.leb_spec 0 (a - b)), (Z.leb_spec b a); lia || reflexivity. Qed.

Lemma leb_shift_lo (a b : Z) : (a - b <=? 0) = (a <=? b).
Proof. destruct (Z.leb_spec (a - b) 0), (Z.leb_spec a b); lia || reflexivity. Qed.

(** C6.  In every mode 0..5 the total a call returns (a call returns
    when its cutoff [since] can be computed) is the number of rows of
    the table that satisfy the whole predicate of the mode: game, category
    and cutoff, the region test of the mode, and the peer filter of the
    mode.  The peer filter is empty in modes 0 and 1 (the requester's own
    row is counted like any other), it excludes [pid = self] in modes 2, 4
    and 5, and nothing is added for the "mine" row put in front in modes 2
    to 5.  The total does not depend on the option "limit".  The number of
    rows returned can differ from the total: on the demo store mode 2
    returns three rows and the total 2. *)
Theorem C6_total_count :
  (forall (db : Store) (now : Z) (gamename : string)
          (pid region category mode : Z) (data : Options) (since : Z),
      resolve_since now data = Return since ->
      0 <= mode <= 5 ->
      let mine := own_record db gamename pid region category in
      let counted := fun r : Row =>
        (r_gamename r =? gamename)%string
        && (r_category r =? category)
        && (since <=? r_updated r)
        && (if mode =? 3 then r_region r =? region
            else negb (Z.land (r_region r) region =? 0))
        && (if mode <? 2 then true
            else if mode =? 2 then negb (r_pid r =? pid)
            else if mode =? 3 then
              existsb (Z.eqb (r_pid r)) (dict_get (o_friends data) [])
            else if mode =? 4 then
              negb (r_pid r =? pid) && (r_score mine <=? r_score r)
            else negb (r_pid r =? pid) && (r_score r <=? r_score mine)) in
      (exists rows,
          retrieve db now gamename pid region category mode data
          = Return (Z.of_nat (List.length (List.filter counted db)), rows)) /\
      (forall limit, exists rows,
          retrieve db now gamename pid region category mode
            (set_limit data limit)
          = Return (Z.of_nat (List.length (List.filter counted db)), rows)))
  /\
  (exists total rows,
      retrieve demo_store demo_now "demo" 7 1 0 2 no_options
      = Return (total, rows) /\
      total = 2 /\ List.length rows = 3%nat).
Proof.
  split; [|eexists _, _; split; [reflexivity | split; reflexivity]].
  intros db now gamename pid region category mode data since Hsince Hmode
    mine counted.
  assert (Hcount :
    List.filter
      (where_peers mode gamename pid region category data (r_score mine) since)
      db
    = List.filter counted db).
  { apply filter_ext. intros r. subst counted.
    each_mode Hmode;
      cbv [where_peers where_all where_nearby where_friends where_nearhi
           where_nearlo region_and Z.ltb Z.eqb Z.compare Pos.compare
           Pos.compare_cont Pos.eqb];
      rewrite ?leb_shift_hi, ?leb_shift_lo; btauto. }
  split.
  - eexists. rewrite (retrieve_uniform _ _ _ _ _ _ _ _ _ Hsince Hmode).
    cbv zeta. fold mine. rewrite Hcount. reflexivity.
  - intros limit. eexists.
    assert (Hsince' : resolve_since now (set_limit data limit) = Return since)
      by exact Hsince.
    rewrite (retrieve_uniform _ _ _ _ _ _ _ _ _ Hsince' Hmode). cbv zeta.
    change (where_peers mode gamename pid region category
              (set_limit data limit))
      with (where_peers mode gamename pid region category data).
    fold mine. rewrite Hcount. reflexivity.
Qed.

Lemma C6_total_count_witness :
  resolve_since demo_now (with_limit 2) = Return 0 /\
  0 <= 1 <= 5 /\
  exists rows,
    retrieve demo_store demo_now "demo" 7 1 0 1 (with_limit 2)
    = Return (3, rows).
Proof.
  split; [reflexivity|]. split; [lia|].
  destruct (proj1 C6_total_count demo_store demo_now "demo" 7 1 0 1
              (with_limit 2) 0) as [[rows Hrows] _]; [reflexivity | lia|].
  exists rows. exact Hrows.
Defined.

(** ** Which rows are fetched *)

Lemma sql_limit_split (n : Z) (l : list Row) :
  exists rest, l = sql_limit n l ++ rest.
Proof.
  unfold sql_limit. destruct (n <? 0).
  - exists []. symmetry. apply app_nil_r.
  - exists (skipn (Z.to_nat n) l). symmetry. apply firstn_skipn.
Qed.

Lemma apply_bound_split (bound : option Z) (l : list Row) :
  exists rest, l = apply_bound bound l ++ rest.
Proof.
  destruct bound as [n|]; simpl.
  - apply sql_limit_split.
  - exists []. symmetry. apply app_nil_r.
Qed.

Lemma strongly_sorted_app (R : Row -> Row -> Prop) (l1 l2 : list Row) :
  StronglySorted R (l1 ++ l2) ->
  StronglySorted R l1 /\ forall x y, In x l1 -> In y l2 -> R x y.
Proof.
  induction l1 as [|a l1 IH]; simpl; intros H.
  - split; [constructor | intros x y []].
  - inversion H as [|? ? Hs Ha]; subst.
    destruct (IH Hs) as [Hs1 Hcross]. split.
    + constructor; [exact Hs1|].
      rewrite Forall_forall in *. intros z Hz. apply Ha, in_or_app. now left.
    + intros x y [<-|Hx] Hy.
      * rewrite Forall_forall in Ha. apply Ha, in_or_app. now right.
      * apply Hcross; assumption.
Qed.

Lemma sort_rows_peers_perm (data : Options) (l : list Row) (mode : Z)
    (mine : Row) :
  Permutation
    (peer_rows mode (sort_rows data l (if mode <? 2 then None else Some mine)))
    l.
Proof.
  unfold peer_rows, sort_rows, list_sort.
  destruct (mode <? 2); [apply Permutation_refl|].
  destruct (truthy _); simpl; apply stable_sort_perm.
Qed.

(** The rows a mode fetches are a leading part of the matching rows in the
    order of the mode's [ORDER BY]: whatever is left out comes no earlier
    in that order than anything fetched. *)
Lemma selection_uniform (db : Store) (now : Z) (gamename : string)
    (pid region category mode : Z) (data : Options) (since : Z) :
  resolve_since now data = Return since ->
  0 <= mode <= 5 ->
  let mine := own_record db gamename pid region category in
  let key := peer_key mode (r_score mine) in
  let matching :=
    List.filter
      (where_peers mode gamename pid region category data (r_score mine) since)
      db in
  exists rows rest,
    retrieve db now gamename pid region category mode data
    = Return (Z.of_nat (List.length matching), rows) /\
    Permutation (peer_rows mode rows ++ rest) matching /\
    (2 <= mode -> exists peers, rows = mine :: peers) /\
    (forall r r', In r (peer_rows mode rows) -> In r' rest ->
       if (FILTERS_get (o_filter data) =? "DESC")%string
       then key r' <= key r else key r <= key r').
Proof.
  intros Hsince Hmode mine key matching.
  set (dir := FILTERS_get (o_filter data)).
  set (ordered := sql_order_by key dir (index_scan matching)).
  destruct (apply_bound_split (peer_bound mode data) ordered) as [rest Hrest].
  set (fetched := apply_bound (peer_bound mode data) ordered) in *.
  exists (sort_rows data fetched (if mode <? 2 then None else Some mine)), rest.
  split; [apply (retrieve_uniform _ _ _ _ _ _ _ _ _ Hsince Hmode)|].
  pose proof (sort_rows_peers_perm data fetched mode mine) as Hperm.
  split; [|split].
  - apply Permutation_trans with (fetched ++ rest).
    + apply Permutation_app_tail, Hperm.
    + rewrite <- Hrest. subst ordered. unfold sql_order_by.
      eapply Permutation_trans; [apply stable_sort_perm|].
      apply index_scan_perm.
  - intros H2. assert (E : (mode <? 2) = false) by lia. rewrite E.
    unfold sort_rows. destruct (truthy _); eexists; reflexivity.
  - intros r r' Hr Hr'.
    apply (Permutation_in _ Hperm) in Hr.
    assert (Hsorted :
      StronglySorted
        (fun a b => key_before key (dir =? "DESC")%string a b = true)
        (fetched ++ rest)).
    { rewrite <- Hrest. apply stable_sort_sorted;
        [apply key_before_total | apply key_before_trans]. }
    apply strongly_sorted_app in Hsorted.
    destruct Hsorted as [_ Hcross]. specialize (Hcross r r' Hr Hr').
    unfold key_before in Hcross.
    destruct (dir =? "DESC")%string; lia.
Qed.

(** ** The "mine" row (C7) *)



(** ** The region tests (C8) *)

Lemma where_peers_score (mode : Z) (gamename : string)
    (pid region category : Z) (data : Options) (s1 s2 since : Z) :
  0 <= mode <= 5 -> mode <> 4 -> mode <> 5 ->
  where_peers mode gamename pid region category data s1 since
  = where_peers mode gamename pid region category data s2 since.
Proof. intros Hmode H4 H5. each_mode Hmode; try reflexivity; lia. Qed.

Lemma peer_key_score (mode s1 s2 : Z) :
  mode <> 2 -> peer_key mode s1 = peer_key mode s2.
Proof.
  intros H2. unfold peer_key. destruct (mode =? 2) eqn:E; [lia | reflexivity].
Qed.

Lemma filter_insert_length (p : Row -> bool) (l1 l2 : list Row) (x : Row) :
  Z.of_nat (List.length (List.filter p (l1 ++ x :: l2)))
  = Z.of_nat (List.length (List.filter p (l1 ++ l2)))
    + (if p x then 1 else 0).
Proof.
  rewrite !filter_app. simpl. destruct (p x); rewrite !length_app; simpl; lia.
Qed.

(** C8, as amended.  Take a call whose cutoff [since] can be computed and
    a record [x] that meets every condition of the mode other than the
    region test (game, category, cutoff, peer filter).
    Putting [x] into the table raises the total by one exactly when [x]
    passes the region test of the mode, and leaves the total unchanged
    otherwise; the test is [x.region & region <> 0] in modes 0, 1, 2, 4, 5
    and [x.region = region] in mode 3.  Every row that comes from the row
    query passes the same test.  The equality test of mode 3 covers its
    row query and its total only: the own-record lookup of mode 3 is the
    bitmask lookup of modes 2, 4 and 5, so in all of modes 2 to 5, when
    some record of the requester (same game and category) has a region
    that shares a bit with the query region, the first row returned is
    such a record, the one with the least region. *)
Theorem C8_region_tests (db1 db2 : Store) (x : Row) (now : Z)
    (gamename : string) (pid region category mode : Z) (data : Options)
    (since : Z) :
  resolve_since now data = Return since ->
  0 <= mode <= 5 ->
  let mine := own_record (db1 ++ db2) gamename pid region category in
  let region_test := fun r : Row =>
    if mode =? 3 then r_region r =? region
    else negb (Z.land (r_region r) region =? 0) in
  let lookup := fun r : Row =>
    (r_gamename r =? gamename)%string
    && negb (Z.land (r_region r) region =? 0)
    && (r_category r =? category) && (r_pid r =? pid) in
  r_gamename x = gamename -> r_category x = category ->
  since <= r_updated x ->
  (2 <= mode -> mode <> 3 -> r_pid x <> pid) ->
  (mode = 3 -> In (r_pid x) (dict_get (o_friends data) [])) ->
  (mode = 4 -> r_score mine <= r_score x) ->
  (mode = 5 -> r_score x <= r_score mine) ->
  exists total rows total' rows',
    retrieve (db1 ++ db2) now gamename pid region category mode data
    = Return (total, rows) /\
    retrieve (db1 ++ x :: db2) now gamename pid region category mode data
    = Return (total', rows') /\
    total' = total + (if region_test x then 1 else 0) /\
    (forall r, In r (peer_rows mode rows') -> region_test r = true) /\
    (2 <= mode ->
     (exists r, In r (db1 ++ x :: db2) /\ lookup r = true) ->
     exists m,
       hd_error rows' = Some m /\
       In m (db1 ++ x :: db2) /\ lookup m = true /\
       forall r, In r (db1 ++ x :: db2) -> lookup r = true ->
                 r_region m <= r_region r).
Proof.
  intros Hresolve Hmode mine region_test lookup Hgame Hcat Hsince Hpid
    Hfriend Hhi Hlo.
  set (mine' := own_record (db1 ++ x :: db2) gamename pid region category).
  assert (Hmine : mode = 4 \/ mode = 5 -> mine' = mine).
  { intros H45. subst mine' mine. unfold own_record.
    rewrite filter_skip; [reflexivity|]. unfold where_mine.
    assert (E : (r_pid x =? pid) = false) by (specialize (Hpid); lia).
    rewrite E. apply andb_false_r. }
  assert (Hwhere :
    where_peers mode gamename pid region category data (r_score mine') since
    = where_peers mode gamename pid region category data (r_score mine) since).
  { destruct (Z.eq_dec mode 4) as [H4|H4]; [rewrite Hmine by tauto; reflexivity|].
    destruct (Z.eq_dec mode 5) as [H5|H5]; [rewrite Hmine by tauto; reflexivity|].
    apply where_peers_score; assumption. }
  assert (Htest :
    where_peers mode gamename pid region category data (r_score mine) since x
    = region_test x).
  { subst region_test. apply Z.leb_le in Hsince.
    assert (Hg : (r_gamename x =? gamename)%string = true)
      by (apply String.eqb_eq, Hgame).
    assert (Hc : (r_category x =? category) = true) by lia.
    assert (Hp : 2 <= mode -> mode <> 3 -> (r_pid x =? pid) = false)
      by (intros H2 H3; specialize (Hpid H2 H3); lia).
    assert (Hf : mode = 3 ->
                 existsb (Z.eqb (r_pid x)) (dict_get (o_friends data) [])
                 = true).
    { intros H3. apply existsb_exists. exists (r_pid x).
      split; [apply Hfriend, H3 | apply Z.eqb_refl]. }
    assert (H4 : mode = 4 -> (0 <=? r_score x - r_score mine) = true)
      by (intros H; specialize (Hhi H); lia).
    assert (H5 : mode = 5 -> (r_score x - r_score mine <=? 0) = true)
      by (intros H; specialize (Hlo H); lia).
    unfold where_peers, where_all, where_nearby, where_friends, where_nearhi,
      where_nearlo, region_and.
    each_mode Hmode; simpl;
      rewrite ?Hg, ?Hc, ?Hsince, ?Hp, ?Hf, ?H4, ?H5 by (reflexivity || lia);
      simpl; rewrite ?andb_true_r; reflexivity. }
  assert (Hregion : forall s r,
    where_peers mode gamename pid region category data s since r = true ->
    region_test r = true).
  { intros s r. subst region_test.
    unfold where_peers, where_all, where_nearby, where_friends, where_nearhi,
      where_nearlo, region_and.
    each_mode Hmode; simpl; rewrite !andb_true_iff; tauto. }
  assert (E2 : 2 <= mode -> (mode <? 2) = false) by lia.
  eexists _, _, _, _.
  split; [apply (retrieve_uniform _ _ _ _ _ _ _ _ _ Hresolve Hmode)|].
  split; [apply (retrieve_uniform _ _ _ _ _ _ _ _ _ Hresolve Hmode)|].
  cbv zeta. fold mine mine'. rewrite Hwhere.
  split; [|split].
  - unfold sql_count. rewrite filter_insert_length, Htest. reflexivity.
  - intros r Hr. apply peers_satisfy_where in Hr.
    destruct Hr as [_ Hr]. eapply Hregion, Hr.
  - intros H2 (r & Hr & Hlookup). rewrite (E2 H2).
    exists mine'. split; [unfold sort_rows; destruct (truthy _); reflexivity|].
    pose proof (own_record_cases (db1 ++ x :: db2) gamename pid region
                  category) as Hcases.
    cbv zeta in Hcases. fold mine' in Hcases.
    change (where_mine gamename region category pid) with lookup in Hcases.
    destruct Hcases as [[_ Hnone]|Hfound]; [|exact Hfound].
    rewrite (Hnone r Hr) in Hlookup. discriminate Hlookup.
Qed.

Lemma C8_region_tests_witness :
  resolve_since demo_now (with_friends [8]) = Return 0 /\
  0 <= 3 <= 5 /\
  exists total rows total' rows',
    retrieve ([region3_row] ++ [demo_row 9 30]) demo_now "demo" 7 1 0 3
      (with_friends [8])
    = Return (total, rows) /\
    retrieve ([region3_row] ++ demo_row 8 80 :: [demo_row 9 30]) demo_now
      "demo" 7 1 0 3 (with_friends [8])
    = Return (total', rows') /\
    total' = total + 1 /\
    hd_error rows' = Some region3_row.
Proof.
  split; [reflexivity|]. split; [lia|].
  destruct (C8_region_tests [region3_row] [demo_row 9 30] (demo_row 8 80)
              demo_now "demo" 7 1 0 3 (with_friends [8]) 0)
    as (total & rows & total' & rows' & H1 & H2 & H3 & _ & H5).
  - reflexivity.
  - lia.
  - reflexivity.
  - reflexivity.
  - unfold demo_row. simpl. lia.
  - intros _ H. exfalso. apply H. reflexivity.
  - intros _. left. reflexivity.
  - intros H. discriminate H.
  - intros H. discriminate H.
  - exists total, rows, total', rows'.
    split; [exact H1|]. split; [exact H2|]. split; [exact H3|].
    assert (Hrows : rows' = [region3_row; demo_row 8 80]).
    { assert (Hrun : retrieve ([region3_row] ++ demo_row 8 80
                                 :: [demo_row 9 30]) demo_now "demo" 7 1 0 3
                       (with_friends [8])
                     = Return (1, [region3_row; demo_row 8 80]))
        by reflexivity.
      rewrite Hrun in H2. injection H2 as _ <-. reflexivity. }
    rewrite Hrows. reflexivity.
Defined.

(** C8, counterexample to the claim as stated: in mode 3 the region test
    is not equality throughout.  Queried for region 1, a table whose only
    record has region 3 yields that record as the first row, because the
    own-record lookup of mode 3 tests [region & 1]. *)
Lemma C8_friends_mine_is_bitmask :
  retrieve [region3_row] demo_now "demo" 7 1 0 3 no_options
  = Return (0, [region3_row]) /\
  r_region region3_row <> 1 /\
  Z.land (r_region region3_row) 1 <> 0.
Proof.
  split; [reflexivity|]. split; intros H; vm_compute in H; discriminate H.
Qed.

(** ** Mode dispatch (C9) *)

Lemma parse_format_int (z : Z) : parse_int (format_int z) = Some z.
Proof.
  unfold parse_int, format_int.
  rewrite NilZero.isi.
  - simpl. f_equal. apply DecimalZ.of_to.
  - destruct z; simpl; intros H; inversion H as [Hnil].
    + apply (DecimalPos.Unsigned.to_uint_nonnil _ Hnil).
  - destruct z; simpl; intros H; inversion H as [Hnil].
    apply (DecimalPos.Unsigned.to_uint_nonnil _ Hnil).
Qed.

Lemma unknown_mode_raises (db : Store) (now : Z) (gamename : string)
    (pid region category mode : Z) (data : Options) (since : Z) :
  resolve_since now data = Return since ->
  mode < 0 \/ 5 < mode ->
  retrieve db now gamename pid region category mode data
  = Raise (ValueError ("Unknown get2 mode: " ++ format_int mode)%string) /\
  issued db now gamename pid region category mode data = [].
Proof.
  intros Hsince Hout. unfold retrieve, issued, web_get2. rewrite Hsince.
  assert (E0 : (mode =? 0) = false) by lia.
  assert (E1 : (mode =? 1) = false) by lia.
  assert (E2 : (mode =? 2) = false) by lia.
  assert (E3 : (mode =? 3) = false) by lia.
  assert (E4 : (mode =? 4) = false) by lia.
  assert (E5 : (mode =? 5) = false) by lia.
  cbn [snd]. rewrite E0, E1, E2, E3, E4, E5.
  split; reflexivity.
Qed.

(** C9, as amended.  When the cutoff of a call can be computed (the
    option "updated" is absent or zero, or it is a number of minutes that
    makes a [timedelta] and [now] minus it is a [datetime]): a mode outside
    0..5 makes the call raise [ValueError] with the message "Unknown get2
    mode: " followed by the decimal text of the mode (from which the mode
    can be read back), and no statement is issued; a mode in 0..5 runs
    exactly the strategy of that mode, on the options as updated, and the
    call returns a pair (total, rows).  When the cutoff cannot be computed
    the call raises [OverflowError] whatever the mode, valid or not,
    before the mode is looked at and without issuing a statement. *)
Theorem C9_mode_dispatch (db : Store) (now : Z) (gamename : string)
    (pid region category mode : Z) (data : Options) :
  let call := snd (web_get2 db now gamename pid region category mode data) in
  match resolve_since now data with
  | Return since =>
      let data' := set_since data since in
      (mode < 0 \/ 5 < mode ->
       retrieve db now gamename pid region category mode data
       = Raise (ValueError ("Unknown get2 mode: " ++ format_int mode)%string)
       /\ parse_int (format_int mode) = Some mode
       /\ issued db now gamename pid region category mode data = []) /\
      (mode = 0 ->
       call = web_get2_own db gamename pid region category data') /\
      (mode = 1 ->
       call = web_get2_top db gamename pid region category data') /\
      (mode = 2 ->
       call = web_get2_nearby db gamename pid region category data') /\
      (mode = 3 ->
       call = web_get2_friends db gamename pid region category data') /\
      (mode = 4 ->
       call = web_get2_nearhi db gamename pid region category data') /\
      (mode = 5 ->
       call = web_get2_nearlo db gamename pid region category data') /\
      (0 <= mode <= 5 ->
       exists total rows,
         retrieve db now gamename pid region category mode data
         = Return (total, rows))
  | Raise e =>
      e = OverflowError /\
      retrieve db now gamename pid region category mode data
      = Raise OverflowError /\
      issued db now gamename pid region category mode data = []
  end.
Proof.
  intros call. destruct (resolve_since now data) as [since|e] eqn:Hsince.
  - subst call. unfold web_get2. rewrite Hsince. cbn [snd].
    split; [|repeat match goal with |- _ /\ _ => split end].
    + intros Hout.
      destruct (unknown_mode_raises db now gamename pid region category mode
                  data since Hsince Hout) as [Hraise Hlog].
      split; [exact Hraise|]. split; [apply parse_format_int | exact Hlog].
    + intros ->. reflexivity.
    + intros ->. reflexivity.
    + intros ->. reflexivity.
    + intros ->. reflexivity.
    + intros ->. reflexivity.
    + intros ->. reflexivity.
    + intros Hmode. eexists _, _.
      apply (retrieve_uniform _ _ _ _ _ _ _ _ _ Hsince Hmode).
  - destruct (retrieve_overflow db now gamename pid region category mode data
                e Hsince) as (He & _ & Hret & Hlog).
    split; [exact He|]. split; [exact Hret | exact Hlog].
Qed.

Lemma C9_mode_dispatch_witness :
  resolve_since demo_now no_options = Return 0 /\
  (6 < 0 \/ 5 < 6) /\
  retrieve demo_store demo_now "demo" 7 1 0 6 no_options
  = Raise (ValueError ("Unknown get2 mode: " ++ format_int 6)%string) /\
  parse_int (format_int 6) = Some 6 /\
  issued demo_store demo_now "demo" 7 1 0 6 no_options = [].
Proof.
  split; [reflexivity|]. split; [right; lia|].
  apply (proj1 (C9_mode_dispatch demo_store demo_now "demo" 7 1 0 6
                  no_options)).
  right. lia.
Defined.

(** C9, counterexample to the claim as stated: with a window of
    2000000000 minutes the call raises [OverflowError], an error that does
    not carry the mode, for the unknown mode 6, and for the known mode 1
    it raises the same error instead of returning a pair. *)
Lemma C9_overflow_before_dispatch :
  resolve_since demo_now huge_window = Raise OverflowError /\
  retrieve demo_store demo_now "demo" 7 1 0 6 huge_window
  = Raise OverflowError /\
  retrieve demo_store demo_now "demo" 7 1 0 1 huge_window
  = Raise OverflowError.
Proof. repeat split. Qed.

(** ** The options dictionary (C10) *)

(** C10, as amended.  Whatever the mode, valid or not, a call whose
    cutoff can be computed leaves the options dictionary with the key
    "since" set to that cutoff ([now] minus the window when the option
    "updated" is present and non-zero, the epoch otherwise) and with every
    other key as it was; the key is written before the mode is looked at,
    so no strategy ever misses it.  A call whose cutoff cannot be computed
    (the window is no [timedelta], or [now] minus the window is no
    [datetime]) raises [OverflowError] and leaves the dictionary exactly
    as it was: "since" is not written. *)
Theorem C10_options_update (db : Store) (now : Z) (gamename : string)
    (pid region category mode : Z) (data : Options) :
  let data' := fst (web_get2 db now gamename pid region category mode data) in
  match resolve_since now data with
  | Return since =>
      since = match o_updated data with
              | Some minutes =>
                  if minutes =? 0 then 0 else now - minutes * 60000000
              | None => 0
              end /\
      o_since data' = Some since /\
      o_updated data' = o_updated data /\
      o_limit data' = o_limit data /\
      o_filter data' = o_filter data /\
      o_friends data' = o_friends data /\
      (forall key,
          retrieve db now gamename pid region category mode data
          <> Raise (KeyError key))
  | Raise e =>
      data' = data /\
      retrieve db now gamename pid region category mode data
      = Raise OverflowError
  end.
Proof.
  intros data'. destruct (resolve_since now data) as [since|e] eqn:Hsince.
  - split.
    + unfold resolve_since, timedelta_minutes, datetime_sub, truthy in Hsince.
      destruct (o_updated data) as [m|]; simpl in Hsince.
      * destruct (m =? 0); simpl in Hsince; [congruence|].
        repeat match type of Hsince with
          | context [if ?b then _ else _] => destruct b
          end; simpl in Hsince; congruence.
      * congruence.
    + subst data'. unfold web_get2. rewrite Hsince. cbn [fst].
      repeat split.
      intros key.
      destruct (Z_le_gt_dec 0 mode) as [H0|H0];
        [destruct (Z_le_gt_dec mode 5) as [H5|H5]|].
      * assert (Hmode : 0 <= mode <= 5) by lia.
        rewrite (retrieve_uniform _ _ _ _ _ _ _ _ _ Hsince Hmode).
        discriminate.
      * destruct (unknown_mode_raises db now gamename pid region category
                    mode data since Hsince) as [-> _]; [lia | discriminate].
      * destruct (unknown_mode_raises db now gamename pid region category
                    mode data since Hsince) as [-> _]; [lia | discriminate].
  - destruct (retrieve_overflow db now gamename pid region category mode data
                e Hsince) as (_ & Hweb & Hret & _).
    subst data'. rewrite Hweb. split; [reflexivity | exact Hret].
Qed.

(** C10, counterexample to the claim as stated: with a window of
    2000000000 minutes the call raises [OverflowError] and the options
    dictionary comes back without the key "since". *)
Lemma C10_since_not_written :
  retrieve demo_store demo_now "demo" 7 1 0 1 huge_window
  = Raise OverflowError /\
  o_since (fst (web_get2 demo_store demo_now "demo" 7 1 0 1 huge_window))
  = None /\
  fst (web_get2 demo_store demo_now "demo" 7 1 0 1 huge_window)
  = huge_window.
Proof. repeat split. Qed.

(** * Further properties of the retrieval strategies *)

(** ** Order and selection of the rows *)

Lemma sorted_firstn (R : Row -> Row -> Prop) (n : nat) (l : list Row) :
  Sorted R l -> Sorted R (firstn n l).
Proof.
  revert n. induction l as [|a l IH]; intros n Hs.
  - destruct n; constructor.
  - destruct n as [|n]; simpl; [constructor|].
    inversion Hs as [|? ? Hl Ha]; subst.
    constructor; [apply IH, Hl|].
    destruct l as [|b l]; [destruct n; constructor|].
    destruct n; simpl; [constructor|].
    inversion Ha; subst. constructor. assumption.
Qed.

Lemma sorted_apply_bound (R : Row -> Row -> Prop) (bound : option Z)
    (l : list Row) :
  Sorted R l -> Sorted R (apply_bound bound l).
Proof.
  intros Hs. destruct bound as [n|]; simpl; [|exact Hs].
  unfold sql_limit. destruct (n <? 0); [exact Hs | apply sorted_firstn, Hs].
Qed.

Lemma FILTERS_desc (key : option Z) :
  (FILTERS_get key =? "DESC")%string
  = match key with Some 1 => true | _ => false end.
Proof. destruct key as [[|[p|p|]|p]|]; reflexivity. Qed.

(** When the cutoff of the call can be computed, modes 0 and 1 hand back
    the rows in the order of the store: by descending score when the
    option "filter" is 1, by ascending score in every other case (0,
    absent, or any other value). *)
Theorem own_top_rows_ordered (db : Store) (now : Z) (gamename : string)
    (pid region category mode : Z) (data : Options) (since : Z) :
  resolve_since now data = Return since ->
  mode = 0 \/ mode = 1 ->
  exists total rows,
    retrieve db now gamename pid region category mode data
    = Return (total, rows) /\
    match o_filter data with
    | Some 1 => descending rows
    | _ => ascending rows
    end.
Proof.
  intros Hsince Hmode. assert (Hrange : 0 <= mode <= 5) by lia.
  assert (E : (mode <? 2) = true) by lia.
  assert (Ek : peer_key mode
                 (r_score (own_record db gamename pid region category))
               = r_score).
  { unfold peer_key. destruct (mode =? 2) eqn:E2; [lia | reflexivity]. }
  eexists _, _.
  split; [apply (retrieve_uniform _ _ _ _ _ _ _ _ _ Hsince Hrange)|].
  cbv zeta. rewrite E, Ek. unfold sort_rows, sql_order_by.
  rewrite FILTERS_desc.
  destruct (o_filter data) as [[|[p|p|]|p]|];
    apply sorted_apply_bound;
    first [apply sort_up_ascending | apply sort_down_descending].
Qed.

Lemma own_top_rows_ordered_witness :
  resolve_since demo_now last_minute = Return 1700000000000000 /\
  (1 = 0 \/ 1 = 1) /\
  exists total rows,
    retrieve demo_store demo_now "demo" 7 1 0 1 last_minute
    = Return (total, rows) /\ ascending rows.
Proof.
  split; [reflexivity|]. split; [right; reflexivity|].
  apply (own_top_rows_ordered demo_store demo_now "demo" 7 1 0 1 last_minute
           1700000000000000); [reflexivity | right; reflexivity].
Defined.

Lemma relative_rows_shape (db : Store) (now : Z) (gamename : string)
    (pid region category mode : Z) (data : Options) (since : Z) :
  resolve_since now data = Return since ->
  2 <= mode <= 5 ->
  exists total peers,
    retrieve db now gamename pid region category mode data
    = Return (total, own_record db gamename pid region category :: peers).
Proof.
  intros Hsince Hmode. assert (Hrange : 0 <= mode <= 5) by lia.
  assert (E : (mode <? 2) = false) by lia.
  pose proof (retrieve_uniform db now gamename pid region category mode data
                since Hsince Hrange) as Hret.
  cbv zeta in Hret. rewrite E in Hret. unfold sort_rows in Hret.
  destruct (truthy _); eexists _, _; exact Hret.
Qed.

(** When the cutoff of the call can be computed, in modes 2 to 5 the
    first row is the requester's own row (of the records that pass the
    bitmask lookup the one the unique index yields first, that of the
    least region; the default row when none passes), and the rows after it
    are in ascending score order when the option "filter" is 0 and in
    descending score order in every other case. *)
Theorem relative_rows_ordered (db : Store) (now : Z) (gamename : string)
    (pid region category mode : Z) (data : Options) (since : Z) :
  resolve_since now data = Return since ->
  2 <= mode <= 5 ->
  exists total peers,
    retrieve db now gamename pid region category mode data
    = Return (total, own_record db gamename pid region category :: peers) /\
    match o_filter data with
    | Some 0 => ascending peers
    | _ => descending peers
    end.
Proof.
  intros Hsince Hmode. assert (Hrange : 0 <= mode <= 5) by lia.
  assert (E : (mode <? 2) = false) by lia.
  pose proof (retrieve_uniform db now gamename pid region category mode data
                since Hsince Hrange) as Hret.
  cbv zeta in Hret. rewrite E in Hret.
  unfold sort_rows, list_sort in Hret.
  destruct (o_filter data) as [[|[p|p|]|p]|]; simpl in Hret;
    eexists _, _; (split; [exact Hret|]);
    first [apply sort_up_ascending | apply sort_down_descending].
Qed.

Lemma relative_rows_ordered_witness :
  resolve_since demo_now last_minute = Return 1700000000000000 /\
  2 <= 4 <= 5 /\
  exists total peers,
    retrieve demo_store demo_now "demo" 9 1 0 4 last_minute
    = Return (total, own_record demo_store "demo" 9 1 0 :: peers) /\
    descending peers.
Proof.
  split; [reflexivity|]. split; [lia|].
  apply (relative_rows_ordered demo_store demo_now "demo" 9 1 0 4 last_minute
           1700000000000000); [reflexivity | lia].
Defined.

(** When the cutoff [since] of the call can be computed, modes 0 and 1
    return a leading part of the matching rows: the total counts all
    matching rows, the rows returned together with the rows left out are
    exactly the matching rows, and no row left out beats a row returned
    (with "filter" 1 no row left out has a higher score, otherwise none
    has a lower score). *)
Theorem own_top_rows_are_first (db : Store) (now : Z) (gamename : string)
    (pid region category mode : Z) (data : Options) (since : Z) :
  resolve_since now data = Return since ->
  mode = 0 \/ mode = 1 ->
  let matching :=
    List.filter (where_all gamename region category since) db in
  exists rows rest,
    retrieve db now gamename pid region category mode data
    = Return (Z.of_nat (List.length matching), rows) /\
    Permutation (rows ++ rest) matching /\
    (forall r r', In r rows -> In r' rest ->
       match o_filter data with
       | Some 1 => r_score r' <= r_score r
       | _ => r_score r <= r_score r'
       end).
Proof.
  intros Hsince Hmode matching. assert (Hrange : 0 <= mode <= 5) by lia.
  destruct (selection_uniform db now gamename pid region category mode data
              since Hsince Hrange) as (rows & rest & Hret & Hperm & _ & Hsel).
  assert (E : (mode <? 2) = true) by lia.
  assert (E2 : (mode =? 2) = false) by lia.
  unfold where_peers, peer_rows, peer_key in *. rewrite E in *.
  rewrite E2 in Hsel.
  exists rows, rest. split; [exact Hret|]. split; [exact Hperm|].
  intros r r' Hr Hr'. specialize (Hsel r r' Hr Hr').
  rewrite FILTERS_desc in Hsel.
  destruct (o_filter data) as [[|[p|p|]|p]|]; exact Hsel.
Qed.

Lemma own_top_rows_are_first_witness :
  resolve_since demo_now (with_limit 2) = Return 0 /\
  (1 = 0 \/ 1 = 1) /\
  exists rows rest,
    retrieve demo_store demo_now "demo" 7 1 0 1 (with_limit 2)
    = Return (3, rows) /\
    Permutation (rows ++ rest) demo_store.
Proof.
  split; [reflexivity|]. split; [right; reflexivity|].
  destruct (own_top_rows_are_first demo_store demo_now "demo" 7 1 0 1
              (with_limit 2) 0) as (rows & rest & Hret & Hperm & _);
    [reflexivity | right; reflexivity|].
  exists rows, rest. split; [exact Hret | exact Hperm].
Defined.

(** Mode 2 picks its peers by score distance from "mine" before it
    re-sorts them.  When the cutoff [since] of the call can be computed
    and the scores of the table are small enough for the difference of two
    of them to stay inside the 64-bit range of the store (each below 2^62
    in absolute value): the peers returned together with the peers left
    out are exactly the matching rows (same game and category, region
    bitmask, other pid, inside the window), and no peer left out is nearer
    to "mine" than a peer returned.  With "filter" 1 the query orders by
    descending distance, and it is the farthest peers that are
    returned. *)
Theorem nearby_rows_by_distance (db : Store) (now : Z) (gamename : string)
    (pid region category : Z) (data : Options) (since : Z) :
  resolve_since now data = Return since ->
  (forall r, In r db -> Z.abs (r_score r) < 4611686018427387904) ->
  let mine := own_record db gamename pid region category in
  let matching :=
    List.filter (where_nearby gamename region category pid since) db in
  exists peers rest,
    retrieve db now gamename pid region category 2 data
    = Return (Z.of_nat (List.length matching), mine :: peers) /\
    Permutation (peers ++ rest) matching /\
    (forall r r', In r peers -> In r' rest ->
       match o_filter data with
       | Some 1 =>
           Z.abs (r_score mine - r_score r') <= Z.abs (r_score mine - r_score r)
       | _ =>
           Z.abs (r_score mine - r_score r) <= Z.abs (r_score mine - r_score r')
       end).
Proof.
  intros Hsince _ mine matching.
  destruct (selection_uniform db now gamename pid region category 2 data
              since Hsince)
    as (rows & rest & Hret & Hperm & Hshape & Hsel); [lia|].
  destruct Hshape as [peers ->]; [lia|].
  exists peers, rest. split; [exact Hret|]. split; [exact Hperm|].
  intros r r' Hr Hr'. specialize (Hsel r r' Hr Hr').
  rewrite FILTERS_desc in Hsel.
  destruct (o_filter data) as [[|[p|p|]|p]|]; exact Hsel.
Qed.

Lemma nearby_rows_by_distance_witness :
  resolve_since demo_now (with_limit 2) = Return 0 /\
  (forall r, In r demo_store -> Z.abs (r_score r) < 4611686018427387904) /\
  exists peers rest,
    retrieve demo_store demo_now "demo" 7 1 0 2 (with_limit 2)
    = Return (2, own_record demo_store "demo" 7 1 0 :: peers) /\
    Permutation (peers ++ rest)
      (List.filter (where_nearby "demo" 1 0 7 0) demo_store).
Proof.
  assert (Hsmall : forall r, In r demo_store ->
                             Z.abs (r_score r) < 4611686018427387904).
  { intros r [<-|[<-|[<-|[]]]]; reflexivity. }
  split; [reflexivity|]. split; [exact Hsmall|].
  destruct (nearby_rows_by_distance demo_store demo_now "demo" 7 1 0
              (with_limit 2) 0 eq_refl Hsmall)
    as (peers & rest & Hret & Hperm & _).
  exists peers, rest. split; [exact Hret | exact Hperm].
Defined.

(** When the cutoff of the call can be computed, every row that comes
    from the row query is a row of the table, of the requested game and
    category, and passes the peer filter of its mode: in modes 2, 4 and 5
    it is never a row of the requester, in mode 3 its pid is in the friend
    list, in mode 4 its score is at least that of "mine" and in mode 5 at
    most that of "mine". *)
Theorem returned_rows_match_request (db : Store) (now : Z)
    (gamename : string) (pid region category mode : Z) (data : Options)
    (since : Z) :
  resolve_since now data = Return since ->
  0 <= mode <= 5 ->
  let mine := own_record db gamename pid region category in
  exists total rows,
    retrieve db now gamename pid region category mode data
    = Return (total, rows) /\
    forall r, In r (peer_rows mode rows) ->
      In r db /\ r_gamename r = gamename /\ r_category r = category /\
      (mode = 2 \/ mode = 4 \/ mode = 5 -> r_pid r <> pid) /\
      (mode = 3 -> In (r_pid r) (dict_get (o_friends data) [])) /\
      (mode = 4 -> r_score mine <= r_score r) /\
      (mode = 5 -> r_score r <= r_score mine).
Proof.
  intros Hsince Hmode mine. eexists _, _.
  split; [apply (retrieve_uniform _ _ _ _ _ _ _ _ _ Hsince Hmode)|].
  intros r Hr. apply peers_satisfy_where in Hr. destruct Hr as [Hin Hw].
  split; [exact Hin|]. fold mine in Hw.
  unfold where_peers, where_all, where_nearby, where_friends, where_nearhi,
    where_nearlo in Hw.
  each_mode Hmode; simpl in Hw; rewrite !andb_true_iff in Hw;
    repeat match goal with H : _ /\ _ |- _ => destruct H end;
    repeat match goal with
      | H : String.eqb _ _ = true |- _ => apply String.eqb_eq in H
      | H : existsb _ _ = true |- _ =>
          apply existsb_exists in H; destruct H as (f & Hf & Heq);
          apply Z.eqb_eq in Heq; rewrite <- Heq in Hf
      end;
    repeat split; try assumption; try lia; intros; try lia; try assumption.
Qed.

Lemma returned_rows_match_request_witness :
  resolve_since demo_now last_minute = Return 1700000000000000 /\
  0 <= 4 <= 5 /\
  exists total rows,
    retrieve demo_store demo_now "demo" 7 1 0 4 last_minute
    = Return (total, rows) /\
    forall r, In r (peer_rows 4 rows) ->
              In r demo_store /\ r_pid r <> 7 /\ 50 <= r_score r.
Proof.
  split; [reflexivity|]. split; [lia|].
  destruct (returned_rows_match_request demo_store demo_now "demo" 7 1 0 4
              last_minute 1700000000000000)
    as (total & rows & Hret & Hrows); [reflexivity | lia|].
  exists total, rows. split; [exact Hret|].
  intros r Hr. destruct (Hrows r Hr) as (Hin & _ & _ & Hpid & _ & Hhi & _).
  split; [exact Hin|]. split; [apply Hpid; right; left; reflexivity|].
  apply (Hhi eq_refl).
Defined.

(** When the cutoff of the call can be computed, the rows taken from the
    row query are never more than the total counts; in modes 2 to 5 the
    list returned is at most one longer than the total, the extra row
    being "mine". *)
Theorem rows_within_total (db : Store) (now : Z) (gamename : string)
    (pid region category mode : Z) (data : Options) (since : Z) :
  resolve_since now data = Return since ->
  0 <= mode <= 5 ->
  exists total rows,
    retrieve db now gamename pid region category mode data
    = Return (total, rows) /\
    Z.of_nat (List.length (peer_rows mode rows)) <= total /\
    Z.of_nat (List.length rows) <= total + (if mode <? 2 then 0 else 1).
Proof.
  intros Hsince Hmode.
  destruct (selection_uniform db now gamename pid region category mode data
              since Hsince Hmode) as (rows & rest & Hret & Hperm & _).
  eexists _, rows. split; [exact Hret|].
  apply Permutation_length in Hperm. rewrite length_app in Hperm.
  split; [lia|].
  unfold peer_rows in Hperm. destruct (mode <? 2) eqn:E; [lia|].
  destruct rows as [|m rows]; simpl in *; lia.
Qed.

Lemma rows_within_total_witness :
  resolve_since demo_now (with_limit 2) = Return 0 /\
  0 <= 2 <= 5 /\
  exists total rows,
    retrieve demo_store demo_now "demo" 7 1 0 2 (with_limit 2)
    = Return (total, rows) /\
    Z.of_nat (List.length (peer_rows 2 rows)) <= total.
Proof.
  split; [reflexivity|]. split; [lia|].
  destruct (rows_within_total demo_store demo_now "demo" 7 1 0 2
              (with_limit 2) 0) as (total & rows & Hret & Hle & _);
    [reflexivity | lia|].
  exists total, rows. split; [exact Hret | exact Hle].
Defined.

(** ** How the modes relate *)

(** With a non-zero option "limit", mode 0 (own) and mode 1 (top) return
    the same total and the same rows: the two strategies differ only in
    what they do when the limit is absent or zero. *)
Theorem own_is_top_with_limit (db : Store) (now : Z) (gamename : string)
    (pid region category : Z) (data : Options) :
  dict_get (o_limit data) 0 <> 0 ->
  retrieve db now gamename pid region category 0 data
  = retrieve db now gamename pid region category 1 data.
Proof.
  intros Hlimit.
  destruct (resolve_since now data) as [since|e] eqn:Hsince.
  - rewrite !(retrieve_uniform _ _ _ _ _ _ _ _ _ Hsince) by lia. cbv zeta.
    unfold peer_bound, truthy. simpl.
    destruct (o_limit data) as [l|]; simpl in *; [|lia].
    destruct (l =? 0) eqn:E; [lia | reflexivity].
  - destruct (retrieve_overflow db now gamename pid region category 0 data
                e Hsince) as (_ & _ & -> & _).
    destruct (retrieve_overflow db now gamename pid region category 1 data
                e Hsince) as (_ & _ & -> & _).
    reflexivity.
Qed.

Lemma own_is_top_with_limit_witness :
  dict_get (o_limit (with_limit 2)) 0 <> 0 /\
  retrieve demo_store demo_now "demo" 7 1 0 0 (with_limit 2)
  = retrieve demo_store demo_now "demo" 7 1 0 1 (with_limit 2).
Proof.
  assert (H : dict_get (o_limit (with_limit 2)) 0 <> 0)
    by (simpl; intros E; discriminate E).
  split; [exact H|].
  apply (own_is_top_with_limit demo_store demo_now "demo" 7 1 0
           (with_limit 2) H).
Defined.

(** When the cutoff of the calls can be computed, pages of mode 1 nest:
    with limits [0 <= n <= m] the total is the same and the rows for limit
    [n] are the first [n] rows for limit [m]. *)
Theorem top_pages_nest (db : Store) (now : Z) (gamename : string)
    (pid region category : Z) (data : Options) (n m since : Z) :
  resolve_since now data = Return since ->
  0 <= n <= m ->
  exists total rows_n rows_m,
    retrieve db now gamename pid region category 1 (set_limit data (Some n))
    = Return (total, rows_n) /\
    retrieve db now gamename pid region category 1 (set_limit data (Some m))
    = Return (total, rows_m) /\
    rows_n = firstn (Z.to_nat n) rows_m.
Proof.
  intros Hsince Hnm.
  assert (Hn : resolve_since now (set_limit data (Some n)) = Return since)
    by exact Hsince.
  assert (Hm : resolve_since now (set_limit data (Some m)) = Return since)
    by exact Hsince.
  eexists _, _, _.
  split; [apply (retrieve_uniform _ _ _ _ _ _ _ _ _ Hn); lia|].
  split; [rewrite (retrieve_uniform _ _ _ _ _ _ _ _ _ Hm) by lia;
          reflexivity|].
  cbv zeta. unfold peer_bound, sort_rows. simpl. unfold sql_limit.
  assert (En : (n <? 0) = false) by lia.
  assert (Em : (m <? 0) = false) by lia.
  rewrite En, Em, firstn_firstn.
  replace (Init.Nat.min (Z.to_nat n) (Z.to_nat m)) with (Z.to_nat n) by lia.
  reflexivity.
Qed.

Lemma top_pages_nest_witness :
  resolve_since demo_now no_options = Return 0 /\
  0 <= 1 <= 2 /\
  exists total rows_n rows_m,
    retrieve demo_store demo_now "demo" 7 1 0 1 (set_limit no_options (Some 1))
    = Return (total, rows_n) /\
    retrieve demo_store demo_now "demo" 7 1 0 1 (set_limit no_options (Some 2))
    = Return (total, rows_m) /\
    rows_n = firstn (Z.to_nat 1) rows_m.
Proof.
  split; [reflexivity|]. split; [lia|].
  apply (top_pages_nest demo_store demo_now "demo" 7 1 0 no_options 1 2 0);
    [reflexivity | lia].
Defined.

Lemma filter_count_balance (h l n e : Row -> bool) (db : list Row) :
  (forall r, Z.b2z (h r) + Z.b2z (l r) = Z.b2z (n r) + Z.b2z (e r)) ->
  Z.of_nat (List.length (List.filter h db))
  + Z.of_nat (List.length (List.filter l db))
  = Z.of_nat (List.length (List.filter n db))
    + Z.of_nat (List.length (List.filter e db)).
Proof.
  intros Hr. induction db as [|r db IH]; simpl; [reflexivity|].
  specialize (Hr r).
  destruct (h r), (l r), (n r), (e r); cbn [Z.b2z List.length] in *;
    rewrite ?Nat2Z.inj_succ; lia.
Qed.

(** When the cutoff [since] of the calls can be computed, near-high and
    near-low together cover the peers of nearby: the totals of modes 4 and
    5 add up to the total of mode 2 plus the number of peers whose score
    equals that of "mine" (these are counted by both). *)
Theorem nearhi_nearlo_cover (db : Store) (now : Z) (gamename : string)
    (pid region category : Z) (data : Options) (since : Z) :
  resolve_since now data = Return since ->
  let mine := own_record db gamename pid region category in
  let tied := fun r : Row =>
    where_nearby gamename region category pid since r
    && (r_score r =? r_score mine) in
  exists total2 total4 total5 rows2 rows4 rows5,
    retrieve db now gamename pid region category 2 data
    = Return (total2, rows2) /\
    retrieve db now gamename pid region category 4 data
    = Return (total4, rows4) /\
    retrieve db now gamename pid region category 5 data
    = Return (total5, rows5) /\
    total4 + total5
    = total2 + Z.of_nat (List.length (List.filter tied db)).
Proof.
  intros Hsince mine tied. eexists _, _, _, _, _, _.
  split; [apply (retrieve_uniform _ _ _ _ _ _ _ _ _ Hsince); lia|].
  split; [apply (retrieve_uniform _ _ _ _ _ _ _ _ _ Hsince); lia|].
  split; [apply (retrieve_uniform _ _ _ _ _ _ _ _ _ Hsince); lia|].
  unfold sql_count. apply filter_count_balance.
  intros r. subst tied. fold mine.
  unfold where_peers, where_nearby, where_nearhi, where_nearlo. simpl.
  rewrite leb_shift_hi, leb_shift_lo.
  destruct ((r_gamename r =? gamename)%string), (region_and r region),
    (r_category r =? category), (r_pid r =? pid),
    (since <=? r_updated r); simpl;
    rewrite ?andb_false_r; try reflexivity.
  destruct (Z.leb_spec (r_score mine) (r_score r)),
    (Z.leb_spec (r_score r) (r_score mine)),
    (Z.eqb_spec (r_score r) (r_score mine)); simpl; lia.
Qed.

Lemma nearhi_nearlo_cover_witness :
  resolve_since demo_now last_minute = Return 1700000000000000 /\
  exists total2 total4 total5 rows2 rows4 rows5,
    retrieve demo_store demo_now "demo" 7 1 0 2 last_minute
    = Return (total2, rows2) /\
    retrieve demo_store demo_now "demo" 7 1 0 4 last_minute
    = Return (total4, rows4) /\
    retrieve demo_store demo_now "demo" 7 1 0 5 last_minute
    = Return (total5, rows5) /\
    total4 + total5
    = total2
      + Z.of_nat
          (List.length
             (List.filter
                (fun r : Row =>
                   where_nearby "demo" 1 0 7 1700000000000000 r
                   && (r_score r
                       =? r_score (own_record demo_store "demo" 7 1 0)))
                demo_store)).
Proof.
  split; [reflexivity|].
  apply (nearhi_nearlo_cover demo_store demo_now "demo" 7 1 0 last_minute
           1700000000000000).
  reflexivity.
Defined.

(** When the cutoff [since] of the calls can be computed, the total of
    modes 0 and 1 is the total of mode 2 plus the number of rows of the
    requester that match (game, region bitmask, category, window): mode 2
    counts everybody but the requester. *)
Theorem total_all_vs_others (db : Store) (now : Z) (gamename : string)
    (pid region category mode : Z) (data : Options) (since : Z) :
  resolve_since now data = Return since ->
  mode = 0 \/ mode = 1 ->
  let mine_counted := fun r : Row =>
    where_all gamename region category since r && (r_pid r =? pid) in
  exists total total2 rows rows2,
    retrieve db now gamename pid region category mode data
    = Return (total, rows) /\
    retrieve db now gamename pid region category 2 data
    = Return (total2, rows2) /\
    total = total2 + Z.of_nat (List.length (List.filter mine_counted db)).
Proof.
  intros Hsince Hmode mine_counted. eexists _, _, _, _.
  split; [apply (retrieve_uniform _ _ _ _ _ _ _ _ _ Hsince); lia|].
  split; [apply (retrieve_uniform _ _ _ _ _ _ _ _ _ Hsince); lia|].
  unfold sql_count.
  pose proof (filter_count_balance
                (where_peers mode gamename pid region category data
                   (r_score (own_record db gamename pid region category))
                   since)
                (fun _ => false)
                (where_peers 2 gamename pid region category data
                   (r_score (own_record db gamename pid region category))
                   since)
                mine_counted db) as Hbal.
  rewrite (filter_none (fun _ => false)) in Hbal by reflexivity.
  simpl List.length in Hbal. rewrite <- Hbal; [lia|].
  intros r. subst mine_counted.
  assert (E : (mode <? 2) = true) by lia.
  unfold where_peers. rewrite E. simpl.
  unfold where_all, where_nearby.
  destruct ((r_gamename r =? gamename)%string), (region_and r region),
    (r_category r =? category), (r_pid r =? pid),
    (since <=? r_updated r); reflexivity.
Qed.

Lemma total_all_vs_others_witness :
  resolve_since demo_now no_options = Return 0 /\
  (1 = 0 \/ 1 = 1) /\
  exists total total2 rows rows2,
    retrieve demo_store demo_now "demo" 7 1 0 1 no_options
    = Return (total, rows) /\
    retrieve demo_store demo_now "demo" 7 1 0 2 no_options
    = Return (total2, rows2) /\
    total = total2 + 1.
Proof.
  split; [reflexivity|]. split; [right; reflexivity|].
  apply (total_all_vs_others demo_store demo_now "demo" 7 1 0 1 no_options 0);
    [reflexivity | right; reflexivity].
Defined.

(** ** Edge cases *)

(** When the cutoff of the call can be computed, a query for region 0
    matches nothing in the bitmask modes, whatever the table holds: modes
    0 and 1 return total 0 and no rows, modes 2, 4 and 5 return total 0
    and the default row alone.  (Mode 3 is different: its peers are the
    friends whose region is exactly 0.) *)
Theorem region_zero_matches_nothing (db : Store) (now : Z)
    (gamename : string) (pid category mode : Z) (data : Options)
    (since : Z) :
  resolve_since now data = Return since ->
  0 <= mode <= 5 -> mode <> 3 ->
  retrieve db now gamename pid 0 category mode data
  = Return (0, if mode <? 2 then []
               else [default_mine gamename pid category]).
Proof.
  intros Hsince Hmode H3.
  assert (Hland : forall r, region_and r 0 = false).
  { intros r. unfold region_and. rewrite Z.land_0_r. reflexivity. }
  rewrite (retrieve_uniform _ _ _ _ _ _ _ _ _ Hsince Hmode). cbv zeta.
  assert (Hmine : own_record db gamename pid 0 category
                  = default_mine gamename pid category).
  { unfold own_record. rewrite filter_none; [reflexivity|].
    intros r. unfold where_mine. rewrite Hland.
    rewrite andb_false_r. reflexivity. }
  rewrite Hmine. rewrite filter_none.
  - unfold sql_order_by, sort_rows, list_sort, apply_bound, index_scan.
    simpl.
    destruct (peer_bound mode data); rewrite ?sql_limit_nil;
      destruct (mode <? 2); try reflexivity;
      destruct (truthy _); reflexivity.
  - intros r. unfold where_peers, where_all, where_nearby, where_nearhi,
      where_nearlo.
    each_mode Hmode; try lia; simpl; rewrite Hland;
      rewrite ?andb_false_r; reflexivity.
Qed.

Lemma region_zero_matches_nothing_witness :
  resolve_since demo_now last_minute = Return 1700000000000000 /\
  0 <= 1 <= 5 /\ 1 <> 3 /\
  retrieve demo_store demo_now "demo" 7 0 0 1 last_minute = Return (0, []).
Proof.
  split; [reflexivity|]. split; [lia|]. split; [lia|].
  apply (region_zero_matches_nothing demo_store demo_now "demo" 7 0 1
           last_minute 1700000000000000); [reflexivity | lia | lia].
Defined.

(** A strategy called on options that lack the key "since" raises
    [KeyError].  Modes 0 and 1 raise before any statement is issued; modes
    2 to 5 have by then issued the own-record lookup and nothing else. *)
Theorem strategies_need_since (db : Store) (gamename : string)
    (pid region category : Z) (data : Options) :
  o_since data = None ->
  let lookup :=
    ("SELECT * FROM ranking"
     ++ " WHERE gamename = ? AND region & ? AND category = ?"
     ++ " AND pid = ?")%string in
  run (web_get2_own db gamename pid region category data)
  = (Raise (KeyError "since"), []) /\
  run (web_get2_top db gamename pid region category data)
  = (Raise (KeyError "since"), []) /\
  run (web_get2_nearby db gamename pid region category data)
  = (Raise (KeyError "since"), [lookup]) /\
  run (web_get2_friends db gamename pid region category data)
  = (Raise (KeyError "since"), [lookup]) /\
  run (web_get2_nearhi db gamename pid region category data)
  = (Raise (KeyError "since"), [lookup]) /\
  run (web_get2_nearlo db gamename pid region category data)
  = (Raise (KeyError "since"), [lookup]).
Proof.
  intros Hsince lookup.
  unfold run, web_get2_own, web_get2_top, web_get2_nearby, web_get2_friends,
    web_get2_nearhi, web_get2_nearlo, select_mine, getitem_since, bind,
    execute, ret, raise.
  rewrite Hsince. repeat split; reflexivity.
Qed.

Lemma strategies_need_since_witness :
  o_since no_options = None /\
  run (web_get2_top demo_store "demo" 7 1 0 no_options)
  = (Raise (KeyError "since"), []).
Proof.
  split; [reflexivity|].
  apply (strategies_need_since demo_store "demo" 7 1 0 no_options).
  reflexivity.
Defined.

(** Retrieval only reads: every statement a call issues is a [SELECT].
    A call whose cutoff can be computed issues two statements in modes 0
    and 1, three in modes 2 to 5, and none for an unknown mode; a call
    whose cutoff cannot be computed issues none at all. *)
Theorem retrieval_only_selects (db : Store) (now : Z) (gamename : string)
    (pid region category mode : Z) (data : Options) :
  Forall (fun sql => String.prefix "SELECT" sql = true)
    (issued db now gamename pid region category mode data) /\
  List.length (issued db now gamename pid region category mode data)
  = match resolve_since now data with
    | Raise _ => 0%nat
    | Return _ =>
        if (mode <? 0) || (5 <? mode) then 0%nat
        else if mode <? 2 then 2%nat else 3%nat
    end.
Proof.
  destruct (resolve_since now data) as [since|e] eqn:Hsince.
  - destruct (Z_le_gt_dec 0 mode) as [H0|H0];
      [destruct (Z_le_gt_dec mode 5) as [H5|H5]|].
    + assert (Hmode : 0 <= mode <= 5) by lia.
      unfold issued, web_get2. rewrite Hsince.
      each_mode Hmode; simpl.
      * unfold web_get2_own, run, bind, execute, getitem_since, ret. simpl.
        destruct (truthy (dict_get (o_limit data) 0)); simpl;
          (split; [repeat constructor | reflexivity]).
      * split; [repeat constructor | reflexivity].
      * split; [repeat constructor | reflexivity].
      * split; [repeat constructor | reflexivity].
      * split; [repeat constructor | reflexivity].
      * split; [repeat constructor | reflexivity].
    + destruct (unknown_mode_raises db now gamename pid region category mode
                  data since Hsince) as [_ ->]; [lia|].
      assert (E : (mode <? 0) || (5 <? mode) = true) by lia.
      rewrite E. split; [constructor | reflexivity].
    + destruct (unknown_mode_raises db now gamename pid region category mode
                  data since Hsince) as [_ ->]; [lia|].
      assert (E : (mode <? 0) || (5 <? mode) = true) by lia.
      rewrite E. split; [constructor | reflexivity].
  - destruct (retrieve_overflow db now gamename pid region category mode data
                e Hsince) as (_ & _ & _ & ->).
    split; [constructor | reflexivity].
Qed.

(** * The row factory *)

Lemma dict_setitem_fresh (d : pydict) (key : string) (v : sqlval) :
  ~ In key (map fst d) -> dict_setitem d key v = d ++ [(key, v)].
Proof.
  induction d as [|[k w] d IH]; simpl; intros Hfresh; [reflexivity|].
  destruct (String.eqb_spec k key) as [->|Hne].
  - exfalso. apply Hfresh. now left.
  - rewrite IH; [reflexivity|]. intros H. apply Hfresh. now right.
Qed.

Lemma skipn_nth_error (row : list sqlval) (idx : nat) (v : sqlval) :
  nth_error row idx = Some v -> skipn idx row = v :: skipn (S idx) row.
Proof.
  revert idx. induction row as [|x row IH]; intros [|idx] H;
    simpl in H; try discriminate.
  - injection H as ->. reflexivity.
  - simpl. apply IH, H.
Qed.

Lemma dict_factory_from_distinct (description : list string)
    (row : list sqlval) :
  forall (idx : nat) (d : pydict),
    NoDup (map fst d ++ description) ->
    (idx + List.length description <= List.length row)%nat ->
    dict_factory_from idx description row d
    = Some (d ++ combine description (skipn idx row)).
Proof.
  induction description as [|col description IH]; intros idx d Hnodup Hlen.
  - simpl. rewrite app_nil_r. reflexivity.
  - simpl in *.
    destruct (nth_error row idx) as [v|] eqn:Hv.
    + rewrite dict_setitem_fresh.
      * rewrite IH.
        -- rewrite (skipn_nth_error row idx v Hv). simpl.
           rewrite <- app_assoc. reflexivity.
        -- rewrite map_app, <- app_assoc. exact Hnodup.
        -- lia.
      * apply NoDup_remove_2 in Hnodup. intros H. apply Hnodup.
        apply in_or_app. now left.
    + apply nth_error_None in Hv. lia.
Qed.

(** When the column names are pairwise distinct and the row has a value
    for each of them, [dict_factory] returns the dictionary that maps the
    columns, in their order, to the row's values; values beyond the last
    column are ignored. *)
Theorem dict_factory_distinct_columns (description : list string)
    (row : list sqlval) :
  NoDup description ->
  (List.length description <= List.length row)%nat ->
  dict_factory description row = Some (combine description row).
Proof.
  intros Hnodup Hlen. unfold dict_factory.
  rewrite dict_factory_from_distinct; [reflexivity | exact Hnodup | lia].
Qed.

Lemma ranking_columns_distinct : NoDup ranking_columns.
Proof.
  unfold ranking_columns.
  repeat (constructor;
          [simpl; intros H;
           repeat (destruct H as [H|H]; [discriminate H|]); exact H|]).
  constructor.
Defined.

Lemma dict_factory_distinct_columns_witness :
  NoDup ranking_columns /\
  (List.length ranking_columns
   <= List.length (row_values (demo_row 7 50)))%nat /\
  dict_factory ranking_columns (row_values (demo_row 7 50))
  = Some (combine ranking_columns (row_values (demo_row 7 50))).
Proof.
  split; [exact ranking_columns_distinct|].
  split; [simpl; lia|].
  apply (dict_factory_distinct_columns ranking_columns
           (row_values (demo_row 7 50)) ranking_columns_distinct).
  simpl; lia.
Defined.

(** [dict_factory] fails (with the [IndexError] of [row[idx]]) exactly
    when the row has fewer values than the cursor has columns. *)
Theorem dict_factory_short_row (description : list string)
    (row : list sqlval) :
  dict_factory description row = None
  <-> (List.length row < List.length description)%nat.
Proof.
  unfold dict_factory.
  assert (H : forall idx d,
             (idx <= List.length row)%nat ->
             (dict_factory_from idx description row d = None
              <-> (List.length row < idx + List.length description)%nat)).
  { induction description as [|col description IH]; intros idx d Hidx; simpl.
    - split; [discriminate | lia].
    - destruct (nth_error row idx) as [v|] eqn:E.
      + assert (Hlt : (idx < List.length row)%nat).
        { apply nth_error_Some. rewrite E. discriminate. }
        rewrite IH by lia. lia.
      + apply nth_error_None in E. split; [lia | reflexivity]. }
  rewrite H by lia. simpl. reflexivity.
Qed.

(** For a row of [ranking], [dict_factory] builds the dictionary with the
    keys of the dictionary [get2_dictrow] builds, in the same order:
    gamename, pid, region, category, score, data, updated. *)
Lemma ranking_row_shape (r : Row) :
  dict_factory ranking_columns (row_values r) = Some (row_items r) /\
  map fst (row_items r) = ranking_columns.
Proof. split; reflexivity. Qed.

Lemma dict_lookup_setitem (d : pydict) (key key' : string) (v : sqlval) :
  dict_lookup (dict_setitem d key v) key'
  = if (key =? key')%string then Some v else dict_lookup d key'.
Proof.
  induction d as [|[k w] d IH]; simpl.
  - reflexivity.
  - destruct (String.eqb_spec k key) as [->|Hne]; simpl.
    + destruct (key =? key')%string; reflexivity.
    + rewrite IH. destruct (String.eqb_spec k key') as [->|Hne'].
      * destruct (String.eqb_spec key key') as [->|]; [congruence | reflexivity].
      * reflexivity.
Qed.

Lemma dict_setitem_keys (d : pydict) (key : string) (v : sqlval) :
  NoDup (map fst d) -> NoDup (map fst (dict_setitem d key v)).
Proof.
  intros Hd. destruct (in_dec string_dec key (map fst d)) as [Hin|Hout].
  - assert (Hsame : map fst (dict_setitem d key v) = map fst d).
    { clear Hd. induction d as [|[k w] d IH]; simpl in *; [contradiction|].
      destruct (String.eqb_spec k key) as [->|Hne]; simpl; [reflexivity|].
      f_equal. apply IH. destruct Hin as [Hin|Hin]; [congruence | exact Hin]. }
    rewrite Hsame. exact Hd.
  - rewrite dict_setitem_fresh by exact Hout.
    rewrite map_app. simpl.
    apply (Permutation_NoDup (l := key :: map fst d)).
    + apply Permutation_cons_append.
    + constructor; assumption.
Qed.

(** Whatever the column names, the dictionary [dict_factory] returns has
    every key once, and under a column name it holds the value of the last
    column of that name (an earlier column of the same name is
    overwritten). *)
Theorem dict_factory_last_column_wins (description : list string)
    (row : list sqlval) (d : pydict) :
  dict_factory description row = Some d ->
  NoDup (map fst d) /\
  forall (i : nat) (name : string) (v : sqlval),
    nth_error description i = Some name ->
    nth_error row i = Some v ->
    (forall j, (i < j)%nat -> nth_error description j <> Some name) ->
    dict_lookup d name = Some v.
Proof.
  unfold dict_factory.
  assert (H : forall description idx d0 d,
    dict_factory_from idx description row d0 = Some d ->
    (NoDup (map fst d0) -> NoDup (map fst d)) /\
    (forall name, ~ In name description ->
                  dict_lookup d name = dict_lookup d0 name) /\
    (forall i name v,
        nth_error description i = Some name ->
        nth_error row (idx + i) = Some v ->
        (forall j, (i < j)%nat -> nth_error description j <> Some name) ->
        dict_lookup d name = Some v)).
  { clear description d.
    induction description as [|col description IH]; intros idx d0 d Hrun;
      simpl in Hrun.
    - injection Hrun as <-. split; [auto|]. split; [auto|].
      intros [|i] name v Hi; discriminate Hi.
    - destruct (nth_error row idx) as [w|] eqn:Hw; [|discriminate].
      destruct (IH _ _ _ Hrun) as (Hkeys & Hother & Hlast).
      split; [intros Hd0; apply Hkeys, dict_setitem_keys, Hd0|].
      split.
      + intros name Hname. rewrite Hother.
        * rewrite dict_lookup_setitem.
          destruct (String.eqb_spec col name) as [->|]; [|reflexivity].
          exfalso. apply Hname. now left.
        * intros Hin. apply Hname. now right.
      + intros [|i] name v Hi Hv Hafter; simpl in Hi.
        * injection Hi as ->. rewrite Nat.add_0_r in Hv.
          rewrite Hother.
          -- rewrite dict_lookup_setitem, String.eqb_refl. congruence.
          -- intros Hin. apply In_nth_error in Hin. destruct Hin as [j Hj].
             apply (Hafter (S j)); [lia | exact Hj].
        * apply (Hlast i name v Hi).
          -- rewrite <- Hv. f_equal. lia.
          -- intros j Hj. apply (Hafter (S j)). lia. }
  intros Hrun. destruct (H _ _ _ _ Hrun) as (Hkeys & _ & Hlast).
  split; [apply Hkeys; constructor|].
  intros i name v Hi Hv Hafter. apply (Hlast i name v Hi); assumption.
Qed.

Lemma dict_factory_last_column_wins_witness :
  dict_factory ["score"; "pid"; "score"] [SqlInt 1; SqlInt 7; SqlInt 2]
  = Some [("score", SqlInt 2); ("pid", SqlInt 7)] /\
  dict_lookup [("score", SqlInt 2); ("pid", SqlInt 7)] "score"
  = Some (SqlInt 2).
Proof.
  assert (Hrun : dict_factory ["score"; "pid"; "score"]
                   [SqlInt 1; SqlInt 7; SqlInt 2]
                 = Some [("score", SqlInt 2); ("pid", SqlInt 7)])
    by reflexivity.
  split; [exact Hrun|].
  destruct (dict_factory_last_column_wins _ _ _ Hrun) as [_ Hlast].
  apply (Hlast 2%nat "score" (SqlInt 2)); try reflexivity.
  intros [|[|[|[|j]]]] Hj; try lia; simpl; discriminate.
Defined.

(** * The schema *)

(** [init] never touches rows: a table that exists keeps its rows, in
    their order, whether the call succeeds or fails, and a table that is
    created is empty.  (When the first index cannot be built the ranking
    table is not reached and stays as it was, possibly missing.) *)
Theorem init_keeps_rows (db : Database) :
  option_map t_rows (storage (snd (init db)))
  = Some (match storage db with Some t => t_rows t | None => [] end) /\
  match ranking (snd (init db)) with
  | Some t' =>
      t_rows t' = match ranking db with Some t => t_rows t | None => [] end
  | None => ranking db = None
  end.
Proof.
  unfold init, create_unique_index, create_table.
  destruct db as [[[srows [|]]|] [[rrows [|]]|]]; simpl;
    repeat match goal with
      | |- context [distinct_keys ?k ?l] => destruct (distinct_keys k l)
      end; simpl; split; reflexivity.
Qed.

(** [init] succeeds exactly when each table that already exists either has
    its unique index or holds no two rows with the same key.  After a
    successful call both tables exist and both unique indexes exist. *)
Theorem init_succeeds_iff (db : Database) :
  (fst (init db) = None <->
   match storage db with
   | Some t => t_unique t || distinct_keys same_storage_key (t_rows t)
   | None => true
   end = true /\
   match ranking db with
   | Some t => t_unique t || distinct_keys same_ranking_key (t_rows t)
   | None => true
   end = true) /\
  (fst (init db) = None ->
   exists s r,
     snd (init db) = mkDatabase (Some s) (Some r) /\
     t_unique s = true /\ t_unique r = true).
Proof.
  unfold init, create_unique_index, create_table.
  destruct db as [[[srows [|]]|] [[rrows [|]]|]]; simpl;
    repeat match goal with
      | |- context [distinct_keys ?k ?l] => destruct (distinct_keys k l)
      end; simpl;
    (split; [split; [intros H; try discriminate H; split; reflexivity
                    | intros [H1 H2]; try discriminate H1;
                      try discriminate H2; reflexivity]
            | intros H;
              first [ discriminate H
                    | eexists _, _;
                      split; [reflexivity | split; reflexivity] ]]).
Qed.

Lemma init_succeeds_iff_witness :
  fst (init empty_database) = None /\
  exists s r,
    snd (init empty_database) = mkDatabase (Some s) (Some r) /\
    t_unique s = true /\ t_unique r = true.
Proof.
  split; [reflexivity|].
  apply (proj2 (init_succeeds_iff empty_database)). reflexivity.
Defined.

(** Running [init] again changes nothing: the second call leaves the
    database as the first call left it and ends the same way (it succeeds
    if the first did, and fails with the same error if the first did). *)
Theorem init_idempotent (db : Database) :
  init (snd (init db)) = init db.
Proof.
  unfold init, create_unique_index, create_table.
  destruct db as [[[srows [|]]|] [[rrows [|]]|]]; simpl;
    repeat match goal with
      | |- context [distinct_keys ?k ?l] =>
          let E := fresh "E" in
          destruct (distinct_keys k l) eqn:E; simpl; rewrite ?E; simpl
      end; reflexivity.
Qed.

(** * Tables with a unique index *)

Section TableFacts.
Context {A : Type}.
Variable same_key : A -> A -> bool.

Lemma filter_nothing (p : A -> bool) (l : list A) :
  (forall y, In y l -> p y = false) -> List.filter p l = [].
Proof.
  induction l as [|x l IH]; simpl; intros Hp; [reflexivity|].
  rewrite (Hp x) by now left. apply IH. intros y Hy. apply Hp. now right.
Qed.

Lemma existsb_filter_weaken (p q : A -> bool) (l : list A) :
  existsb p (List.filter q l) = true -> existsb p l = true.
Proof.
  rewrite !existsb_exists. intros (x & Hx & Hp).
  apply filter_In in Hx. exists x. tauto.
Qed.

Lemma distinct_keys_filter (q : A -> bool) (l : list A) :
  distinct_keys same_key l = true ->
  distinct_keys same_key (List.filter q l) = true.
Proof.
  induction l as [|x l IH]; simpl; [auto|].
  rewrite andb_true_iff, negb_true_iff. intros [Hx Hl].
  destruct (q x); simpl; [|auto].
  rewrite andb_true_iff, negb_true_iff. split; [|auto].
  destruct (existsb (same_key x) (List.filter q l)) eqn:E; [|reflexivity].
  apply existsb_filter_weaken in E. congruence.
Qed.

Lemma distinct_keys_snoc (l : list A) (x : A) :
  distinct_keys same_key l = true ->
  (forall y, In y l -> same_key y x = false) ->
  distinct_keys same_key (l ++ [x]) = true.
Proof.
  induction l as [|y l IH]; simpl; [reflexivity|].
  rewrite !andb_true_iff, !negb_true_iff. intros [Hy Hl] Hx.
  split; [|apply IH; auto].
  rewrite existsb_app, Hy. simpl. rewrite Hx by now left. reflexivity.
Qed.

Lemma insert_or_replace_distinct (t : Table A) (new : A) :
  t_unique t = true ->
  distinct_keys same_key (t_rows t) = true ->
  t_unique (insert_or_replace same_key t new) = true /\
  distinct_keys same_key (t_rows (insert_or_replace same_key t new)) = true.
Proof.
  intros Hu Hd. unfold insert_or_replace. rewrite Hu. simpl.
  split; [reflexivity|].
  apply distinct_keys_snoc; [apply distinct_keys_filter, Hd|].
  intros y Hy. apply filter_In in Hy. destruct Hy as [_ Hy].
  apply negb_true_iff in Hy. exact Hy.
Qed.

Hypothesis same_key_refl : forall x, same_key x x = true.
Hypothesis same_key_join :
  forall x y z, same_key x z = true -> same_key y z = true ->
                same_key x y = true.

Lemma filter_other_keys_length (l : list A) (new : A) :
  distinct_keys same_key l = true ->
  (List.length (List.filter (fun old => negb (same_key old new)) l)
   + (if existsb (fun old => same_key old new) l then 1 else 0)
   = List.length l)%nat.
Proof.
  induction l as [|x l IH]; simpl; [reflexivity|].
  rewrite andb_true_iff, negb_true_iff. intros [Hx Hl].
  specialize (IH Hl).
  destruct (same_key x new) eqn:Exn; simpl.
  - destruct (existsb (fun old => same_key old new) l) eqn:E.
    + exfalso. apply existsb_exists in E. destruct E as (y & Hy & Hyn).
      assert (Hxy : existsb (same_key x) l = true).
      { apply existsb_exists. exists y. split; [exact Hy|].
        apply same_key_join with new; assumption. }
      congruence.
    + lia.
  - lia.
Qed.

Lemma filter_same_key_replaced (l : list A) (new : A) :
  List.filter (fun old => same_key old new)
    (List.filter (fun old => negb (same_key old new)) l ++ [new])
  = [new].
Proof.
  rewrite filter_app. simpl. rewrite same_key_refl.
  rewrite filter_nothing; [reflexivity|].
  intros y Hy. apply filter_In in Hy. destruct Hy as [_ Hy].
  apply negb_true_iff in Hy. exact Hy.
Qed.

Lemma filter_other_keys_replaced (l : list A) (new : A) :
  List.filter (fun old => negb (same_key old new))
    (List.filter (fun old => negb (same_key old new)) l ++ [new])
  = List.filter (fun old => negb (same_key old new)) l.
Proof.
  rewrite filter_app. simpl. rewrite same_key_refl. simpl.
  rewrite app_nil_r.
  induction l as [|x l IH]; simpl; [reflexivity|].
  destruct (negb (same_key x new)) eqn:E; simpl; rewrite ?E, IH; reflexivity.
Qed.
End TableFacts.

Lemma same_ranking_key_true (a b : Row) :
  same_ranking_key a b = true <->
  r_gamename a = r_gamename b /\ r_pid a = r_pid b /\
  r_region a = r_region b /\ r_category a = r_category b.
Proof.
  unfold same_ranking_key.
  rewrite !andb_true_iff, String.eqb_eq, !Z.eqb_eq. tauto.
Qed.

Lemma same_ranking_key_refl (a : Row) : same_ranking_key a a = true.
Proof. apply same_ranking_key_true. tauto. Qed.

Lemma same_ranking_key_join (a b c : Row) :
  same_ranking_key a c = true -> same_ranking_key b c = true ->
  same_ranking_key a b = true.
Proof.
  rewrite !same_ranking_key_true. intros (-> & -> & -> & ->) (-> & -> & -> & ->).
  tauto.
Qed.

Lemma same_storage_key_true (a b : Blob) :
  same_storage_key a b = true <->
  s_gamename a = s_gamename b /\ s_pid a = s_pid b /\ s_region a = s_region b.
Proof.
  unfold same_storage_key.
  rewrite !andb_true_iff, !String.eqb_eq, Z.eqb_eq. tauto.
Qed.

Lemma same_storage_key_refl (a : Blob) : same_storage_key a a = true.
Proof. apply same_storage_key_true. tauto. Qed.

Lemma filter_filter_implied {A : Type} (p q : A -> bool) (l : list A) :
  (forall x, p x = true -> q x = true) ->
  List.filter p (List.filter q l) = List.filter p l.
Proof.
  intros Hpq. induction l as [|x l IH]; simpl; [reflexivity|].
  destruct (q x) eqn:Eq; simpl.
  - rewrite IH. reflexivity.
  - destruct (p x) eqn:Ep; [|exact IH].
    apply Hpq in Ep. congruence.
Qed.

(** * Writing scores *)

(** [web_put2] keeps the table well keyed: when the unique index exists
    and no two rows share the key (gamename, pid, region, category), the
    same holds after the call, and the blob store is not touched. *)
Theorem web_put2_keeps_keys_distinct (db : Database) (t : Table Row)
    (now : Z) (gamename : string) (pid region category score : Z)
    (data : string) :
  ranking db = Some t ->
  t_unique t = true ->
  distinct_keys same_ranking_key (t_rows t) = true ->
  exists t',
    web_put2 db now gamename pid region category score data
    = inr (mkDatabase (storage db) (Some t')) /\
    t_unique t' = true /\
    distinct_keys same_ranking_key (t_rows t') = true.
Proof.
  intros Hr Hu Hd. unfold web_put2. rewrite Hr.
  eexists. split; [reflexivity|].
  apply insert_or_replace_distinct; assumption.
Qed.

Lemma web_put2_keeps_keys_distinct_witness :
  ranking demo_database = Some (mkTable demo_store true) /\
  t_unique (mkTable demo_store true) = true /\
  distinct_keys same_ranking_key (t_rows (mkTable demo_store true)) = true /\
  exists t',
    web_put2 demo_database demo_now "demo" 7 1 0 60 ""
    = inr (mkDatabase (storage demo_database) (Some t')) /\
    t_unique t' = true /\
    distinct_keys same_ranking_key (t_rows t') = true.
Proof.
  split; [reflexivity|]. split; [reflexivity|]. split; [reflexivity|].
  apply (web_put2_keeps_keys_distinct demo_database
           (mkTable demo_store true) demo_now "demo" 7 1 0 60 "");
    reflexivity.
Defined.

(** [web_put2] is an upsert on a well-keyed table: afterwards exactly one
    row has the key written, namely the new row; the rows with other keys
    are the same rows in the same order; and the table has one row more if
    the key was new and as many rows as before if it was not. *)
Theorem web_put2_replaces_own_key (db : Database) (t : Table Row)
    (now : Z) (gamename : string) (pid region category score : Z)
    (data : string) :
  ranking db = Some t ->
  t_unique t = true ->
  distinct_keys same_ranking_key (t_rows t) = true ->
  let new := mkRow gamename pid region category score data now in
  exists t',
    web_put2 db now gamename pid region category score data
    = inr (mkDatabase (storage db) (Some t')) /\
    List.filter (fun old => same_ranking_key old new) (t_rows t') = [new] /\
    List.filter (fun old => negb (same_ranking_key old new)) (t_rows t')
    = List.filter (fun old => negb (same_ranking_key old new)) (t_rows t) /\
    List.length (t_rows t')
    = if existsb (fun old => same_ranking_key old new) (t_rows t)
      then List.length (t_rows t) else S (List.length (t_rows t)).
Proof.
  intros Hr Hu Hd new. unfold web_put2. rewrite Hr.
  eexists. split; [reflexivity|].
  unfold insert_or_replace. rewrite Hu. simpl. fold new.
  split; [apply filter_same_key_replaced, same_ranking_key_refl|].
  split; [apply filter_other_keys_replaced, same_ranking_key_refl|].
  rewrite length_app. simpl.
  pose proof (filter_other_keys_length same_ranking_key
                same_ranking_key_join (t_rows t) new Hd) as Hlen.
  destruct (existsb (fun old => same_ranking_key old new) (t_rows t)); lia.
Qed.

Lemma web_put2_replaces_own_key_witness :
  ranking (mkDatabase None (Some (mkTable demo_store true)))
  = Some (mkTable demo_store true) /\
  t_unique (mkTable demo_store true) = true /\
  distinct_keys same_ranking_key (t_rows (mkTable demo_store true)) = true /\
  exists t',
    web_put2 (mkDatabase None (Some (mkTable demo_store true)))
      demo_now "demo" 7 1 0 60 ""
    = inr (mkDatabase None (Some t')) /\
    List.length (t_rows t') = 3%nat.
Proof.
  split; [reflexivity|]. split; [reflexivity|]. split; [reflexivity|].
  destruct (web_put2_replaces_own_key
              (mkDatabase None (Some (mkTable demo_store true)))
              (mkTable demo_store true) demo_now "demo" 7 1 0 60 "")
    as (t' & Hput & _ & _ & Hlen); try reflexivity.
  exists t'. split; [exact Hput | exact Hlen].
Defined.

(** Writing the same key twice leaves what the second write alone would
    leave: the first write is overwritten without a trace. *)
Theorem web_put2_overwrites (db : Database) (t : Table Row) (now1 now2 : Z)
    (gamename : string) (pid region category score1 score2 : Z)
    (data1 data2 : string) :
  ranking db = Some t ->
  t_unique t = true ->
  exists db1,
    web_put2 db now1 gamename pid region category score1 data1 = inr db1 /\
    web_put2 db1 now2 gamename pid region category score2 data2
    = web_put2 db now2 gamename pid region category score2 data2.
Proof.
  intros Hr Hu. unfold web_put2. rewrite Hr.
  eexists. split; [reflexivity|]. simpl.
  unfold insert_or_replace. rewrite Hu. simpl.
  set (new1 := mkRow gamename pid region category score1 data1 now1).
  set (new2 := mkRow gamename pid region category score2 data2 now2).
  assert (Hsame : forall old,
             negb (same_ranking_key old new2) = negb (same_ranking_key old new1))
    by reflexivity.
  rewrite (filter_ext _ _ Hsame
             (List.filter (fun old => negb (same_ranking_key old new1))
                (t_rows t) ++ [new1])).
  rewrite (filter_other_keys_replaced same_ranking_key same_ranking_key_refl).
  rewrite (filter_ext _ _ Hsame (t_rows t)).
  reflexivity.
Qed.

Lemma web_put2_overwrites_witness :
  ranking (mkDatabase None (Some (mkTable demo_store true)))
  = Some (mkTable demo_store true) /\
  exists db1,
    web_put2 (mkDatabase None (Some (mkTable demo_store true)))
      1 "demo" 7 1 0 60 "a" = inr db1 /\
    web_put2 db1 2 "demo" 7 1 0 70 "b"
    = web_put2 (mkDatabase None (Some (mkTable demo_store true)))
        2 "demo" 7 1 0 70 "b".
Proof.
  split; [reflexivity|].
  apply (web_put2_overwrites
           (mkDatabase None (Some (mkTable demo_store true)))
           (mkTable demo_store true) 1 2 "demo" 7 1 0 60 70 "a" "b");
    reflexivity.
Defined.

Lemma insert_or_replace_last {A : Type} (same_key : A -> A -> bool)
    (t : Table A) (new : A) :
  exists l,
    t_rows (insert_or_replace same_key t new) = l ++ [new] /\
    (t_unique t = true ->
     l = List.filter (fun old => negb (same_key old new)) (t_rows t)).
Proof.
  unfold insert_or_replace. destruct (t_unique t); simpl;
    eexists; split; try reflexivity. intros H; discriminate H.
Qed.

(** A score that has been written is visible: a mode 0 query of the same
    game and category, for a region that shares a bit with the region
    written, whose cutoff can be computed and is not after the time of
    writing, counts the new row, and returns it when no limit is set.  (A
    record written with region 0 shares no bit with any region.) *)
Theorem web_put2_then_retrieve (db : Database) (t : Table Row) (now : Z)
    (gamename : string) (pid region category score : Z) (data : string)
    (now' requester query_region : Z) (options : Options) (since : Z) :
  ranking db = Some t ->
  Z.land region query_region <> 0 ->
  resolve_since now' options = Return since ->
  since <= now ->
  exists t' total rows,
    web_put2 db now gamename pid region category score data
    = inr (mkDatabase (storage db) (Some t')) /\
    retrieve (t_rows t') now' gamename requester query_region category 0
      options
    = Return (total, rows) /\
    1 <= total /\
    (dict_get (o_limit options) 0 = 0 ->
     In (mkRow gamename pid region category score data now) rows).
Proof.
  intros Hr Hland Hsince Hle. unfold web_put2. rewrite Hr.
  set (new := mkRow gamename pid region category score data now).
  destruct (insert_or_replace_last same_ranking_key t new) as (l & Hl & _).
  eexists _, _, _. split; [reflexivity|].
  split; [apply (retrieve_uniform _ _ _ _ _ _ _ _ _ Hsince); lia|].
  cbv zeta. cbn [ranking t_rows]. rewrite Hl.
  assert (Hnew : where_peers 0 gamename requester query_region category
                   options
                   (r_score (own_record (l ++ [new]) gamename requester
                               query_region category))
                   since new = true).
  { unfold where_peers, where_all, region_and. simpl.
    rewrite String.eqb_refl, Z.eqb_refl.
    destruct (Z.eqb_spec (Z.land region query_region) 0); [contradiction|].
    simpl. lia. }
  split.
  - unfold sql_count. rewrite filter_app, length_app. simpl.
    rewrite Hnew. simpl. lia.
  - intros Hlimit. unfold peer_bound, truthy. simpl. rewrite Hlimit. simpl.
    unfold sql_order_by. apply stable_sort_In, index_scan_In, filter_In.
    split; [apply in_or_app; right; now left | exact Hnew].
Qed.

Lemma web_put2_then_retrieve_witness :
  ranking demo_database = Some (mkTable demo_store true) /\
  Z.land 1 3 <> 0 /\
  resolve_since demo_now last_minute = Return 1700000000000000 /\
  1700000000000000 <= 1700000030000000 /\
  exists t' total rows,
    web_put2 demo_database 1700000030000000 "demo" 7 1 0 60 ""
    = inr (mkDatabase (storage demo_database) (Some t')) /\
    retrieve (t_rows t') demo_now "demo" 8 3 0 0 last_minute
    = Return (total, rows) /\
    1 <= total /\
    In (mkRow "demo" 7 1 0 60 "" 1700000030000000) rows.
Proof.
  assert (H1 : Z.land 1 3 <> 0) by (simpl; intros E; discriminate E).
  assert (H2 : 1700000000000000 <= 1700000030000000)
    by (intros E; discriminate E).
  split; [reflexivity|]. split; [exact H1|]. split; [reflexivity|].
  split; [exact H2|].
  destruct (web_put2_then_retrieve demo_database (mkTable demo_store true)
              1700000030000000 "demo" 7 1 0 60 "" demo_now 8 3
              last_minute 1700000000000000 eq_refl H1 eq_refl H2)
    as (t' & total & rows & Hput & Hret & Htotal & Hrows).
  exists t', total, rows. split; [exact Hput|]. split; [exact Hret|].
  split; [exact Htotal | apply Hrows; reflexivity].
Defined.

(** After a player has written a score, the relative modes show it as
    "mine": if the unique index exists, the player has no row for this
    game and category in another region that matches the query region, and
    the cutoff of the query can be computed, then in modes 2 to 5 the
    first row returned is the row just written. *)
Theorem web_put2_then_mine (db : Database) (t : Table Row) (now : Z)
    (gamename : string) (pid region category score : Z) (data : string)
    (now' query_region mode : Z) (options : Options) (since : Z) :
  ranking db = Some t ->
  t_unique t = true ->
  Z.land region query_region <> 0 ->
  (forall r, In r (t_rows t) ->
             where_mine gamename query_region category pid r = true ->
             r_region r = region) ->
  resolve_since now' options = Return since ->
  2 <= mode <= 5 ->
  exists t' total peers,
    web_put2 db now gamename pid region category score data
    = inr (mkDatabase (storage db) (Some t')) /\
    retrieve (t_rows t') now' gamename pid query_region category mode options
    = Return (total,
              mkRow gamename pid region category score data now :: peers).
Proof.
  intros Hr Hu Hland Honly Hsince Hmode. unfold web_put2. rewrite Hr.
  set (new := mkRow gamename pid region category score data now).
  destruct (relative_rows_shape
              (t_rows (insert_or_replace same_ranking_key t new)) now'
              gamename pid query_region category mode options since
              Hsince Hmode)
    as (total & peers & Hret).
  eexists _, total, peers. split; [reflexivity|].
  cbn [ranking]. rewrite Hret. do 2 f_equal.
  unfold own_record, insert_or_replace. rewrite Hu. simpl.
  rewrite filter_app. simpl.
  assert (Hnew : where_mine gamename query_region category pid new = true).
  { unfold where_mine, region_and. simpl.
    rewrite String.eqb_refl, !Z.eqb_refl.
    destruct (Z.eqb_spec (Z.land region query_region) 0); [contradiction|].
    reflexivity. }
  rewrite Hnew.
  rewrite filter_nothing; [reflexivity|].
  intros r Hrin. apply filter_In in Hrin. destruct Hrin as [Hin Hother].
  destruct (where_mine gamename query_region category pid r) eqn:E;
    [|reflexivity].
  exfalso. apply negb_true_iff in Hother.
  assert (Hkey : same_ranking_key r new = true).
  { apply same_ranking_key_true. specialize (Honly r Hin E).
    unfold where_mine in E. rewrite !andb_true_iff in E.
    destruct E as [[[Hg _] Hc] Hp].
    apply String.eqb_eq in Hg. simpl. repeat split; lia || assumption. }
  congruence.
Qed.

Lemma web_put2_then_mine_witness :
  ranking demo_database = Some (mkTable demo_store true) /\
  t_unique (mkTable demo_store true) = true /\
  Z.land 1 3 <> 0 /\
  (forall r, In r (t_rows (mkTable demo_store true)) ->
             where_mine "demo" 3 0 7 r = true -> r_region r = 1) /\
  (exists r, In r (t_rows (mkTable demo_store true)) /\
             where_mine "demo" 3 0 7 r = true) /\
  resolve_since demo_now last_minute = Return 1700000000000000 /\
  2 <= 2 <= 5 /\
  exists t' total peers,
    web_put2 demo_database 1700000030000000 "demo" 7 1 0 60 ""
    = inr (mkDatabase (storage demo_database) (Some t')) /\
    retrieve (t_rows t') demo_now "demo" 7 3 0 2 last_minute
    = Return (total, mkRow "demo" 7 1 0 60 "" 1700000030000000 :: peers).
Proof.
  assert (H1 : Z.land 1 3 <> 0) by (simpl; intros E; discriminate E).
  assert (H2 : 2 <= 2 <= 5) by lia.
  assert (H3 : forall r, In r (t_rows (mkTable demo_store true)) ->
                         where_mine "demo" 3 0 7 r = true -> r_region r = 1).
  { intros r [<-|[<-|[<-|[]]]] _; reflexivity. }
  split; [reflexivity|]. split; [reflexivity|]. split; [exact H1|].
  split; [exact H3|].
  split; [exists (demo_row 7 50); split; [left; reflexivity | reflexivity]|].
  split; [reflexivity|]. split; [exact H2|].
  apply (web_put2_then_mine demo_database (mkTable demo_store true)
           1700000030000000 "demo" 7 1 0 60 "" demo_now 3 2 last_minute
           1700000000000000 eq_refl eq_refl H1 H3 eq_refl H2).
Defined.

(** * The blob store *)

(** [root_download] returns the first row of [storage] with the key asked
    for, and [None] exactly when no row has that key. *)
Theorem root_download_finds_key (db : Database) (t : Table Blob)
    (gamename : string) (pid : Z) (region : string) :
  storage db = Some t ->
  match root_download db gamename pid region with
  | inr (Some b) =>
      In b (t_rows t) /\
      s_gamename b = gamename /\ s_pid b = pid /\ s_region b = region
  | inr None =>
      forall b, In b (t_rows t) ->
                ~ (s_gamename b = gamename /\ s_pid b = pid
                   /\ s_region b = region)
  | inl _ => False
  end.
Proof.
  intros Hs. unfold root_download. rewrite Hs.
  set (wanted := fun b : Blob =>
                   (s_gamename b =? gamename)%string && (s_pid b =? pid)
                   && (s_region b =? region)%string).
  assert (Hwanted : forall b, wanted b = true <->
                              s_gamename b = gamename /\ s_pid b = pid
                              /\ s_region b = region).
  { intros b. unfold wanted.
    rewrite !andb_true_iff, !String.eqb_eq, Z.eqb_eq. tauto. }
  destruct (List.filter wanted (t_rows t)) as [|b l] eqn:E; simpl.
  - intros b Hb Hkey. apply Hwanted in Hkey.
    assert (Hin : In b (List.filter wanted (t_rows t)))
      by (apply filter_In; tauto).
    rewrite E in Hin. exact Hin.
  - assert (Hin : In b (List.filter wanted (t_rows t)))
      by (rewrite E; now left).
    apply filter_In in Hin. destruct Hin as [Hin Hb].
    apply Hwanted in Hb. tauto.
Qed.

Lemma root_download_finds_key_witness :
  storage demo_database
  = Some (mkTable [mkBlob "demo" 8 "eu" "other" 1699999999000000; demo_blob]
            true) /\
  root_download demo_database "demo" 7 "eu" = inr (Some demo_blob) /\
  In demo_blob [mkBlob "demo" 8 "eu" "other" 1699999999000000; demo_blob] /\
  s_gamename demo_blob = "demo" /\ s_pid demo_blob = 7 /\
  s_region demo_blob = "eu".
Proof.
  split; [reflexivity|]. split; [reflexivity|].
  exact (root_download_finds_key demo_database
           (mkTable [mkBlob "demo" 8 "eu" "other" 1699999999000000; demo_blob]
              true)
           "demo" 7 "eu" eq_refl).
Defined.

(** What [root_upload] stores, [root_download] returns: with the unique
    index in place, a download of the key just uploaded yields the row
    with the uploaded data and the time of the upload, whatever was stored
    under that key before. *)
Theorem root_upload_then_download (db : Database) (t : Table Blob)
    (now : Z) (gamename : string) (pid : Z) (region data : string) :
  storage db = Some t ->
  t_unique t = true ->
  exists db',
    root_upload db now gamename pid region data = inr db' /\
    ranking db' = ranking db /\
    root_download db' gamename pid region
    = inr (Some (mkBlob gamename pid region data now)).
Proof.
  intros Hs Hu. unfold root_upload. rewrite Hs.
  eexists. split; [reflexivity|]. split; [reflexivity|].
  unfold root_download, insert_or_replace. rewrite Hu. simpl.
  set (new := mkBlob gamename pid region data now).
  change (fun b : Blob =>
            (s_gamename b =? gamename)%string && (s_pid b =? pid)
            && (s_region b =? region)%string)
    with (fun b : Blob => same_storage_key b new).
  rewrite (filter_same_key_replaced same_storage_key same_storage_key_refl).
  reflexivity.
Qed.

Lemma root_upload_then_download_witness :
  storage (snd (init empty_database)) = Some (mkTable [] true) /\
  exists db',
    root_upload (snd (init empty_database)) 5 "demo" 7 "eu" "blob" = inr db' /\
    ranking db' = ranking (snd (init empty_database)) /\
    root_download db' "demo" 7 "eu"
    = inr (Some (mkBlob "demo" 7 "eu" "blob" 5)).
Proof.
  split; [reflexivity|].
  apply (root_upload_then_download (snd (init empty_database))
           (mkTable [] true) 5 "demo" 7 "eu" "blob"); reflexivity.
Defined.

(** An upload changes the answer for its own key only: a download of any
    other key returns after the upload what it returned before, with or
    without the unique index. *)
Theorem root_upload_keeps_other_keys (db : Database) (t : Table Blob)
    (now : Z) (gamename : string) (pid : Z) (region data : string)
    (gamename' : string) (pid' : Z) (region' : string) :
  storage db = Some t ->
  ~ (gamename' = gamename /\ pid' = pid /\ region' = region) ->
  exists db',
    root_upload db now gamename pid region data = inr db' /\
    root_download db' gamename' pid' region'
    = root_download db gamename' pid' region'.
Proof.
  intros Hs Hother. unfold root_upload. rewrite Hs.
  eexists. split; [reflexivity|].
  unfold root_download. rewrite Hs. cbn [storage].
  set (new := mkBlob gamename pid region data now).
  set (wanted := fun b : Blob =>
                   (s_gamename b =? gamename')%string && (s_pid b =? pid')
                   && (s_region b =? region')%string).
  assert (Hwanted : forall b, wanted b = true <->
                              s_gamename b = gamename' /\ s_pid b = pid'
                              /\ s_region b = region').
  { intros b. unfold wanted.
    rewrite !andb_true_iff, !String.eqb_eq, Z.eqb_eq. tauto. }
  assert (Hnew : wanted new = false).
  { destruct (wanted new) eqn:E; [|reflexivity].
    apply Hwanted in E. simpl in E. exfalso. apply Hother.
    destruct E as (<- & <- & <-). tauto. }
  destruct (insert_or_replace_last same_storage_key t new) as (l & Hl & Hfilter).
  rewrite Hl, filter_app. simpl. rewrite Hnew, app_nil_r.
  destruct (t_unique t) eqn:Hu.
  - rewrite (Hfilter eq_refl). rewrite filter_filter_implied; [reflexivity|].
    intros b Hb. apply negb_true_iff.
    destruct (same_storage_key b new) eqn:E; [|reflexivity].
    apply same_storage_key_true in E. simpl in E.
    apply Hwanted in Hb. exfalso. apply Hother.
    destruct E as (E1 & E2 & E3), Hb as (H1 & H2 & H3).
    rewrite <- H1, <- H2, <- H3. tauto.
  - unfold insert_or_replace in Hl. rewrite Hu in Hl. simpl in Hl.
    apply app_inj_tail in Hl. destruct Hl as [<- _]. reflexivity.
Qed.

Lemma root_upload_keeps_other_keys_witness :
  storage (snd (init empty_database)) = Some (mkTable [] true) /\
  ~ ("demo" = "demo" /\ 8 = 7 /\ "eu" = "eu") /\
  exists db',
    root_upload (snd (init empty_database)) 5 "demo" 7 "eu" "blob" = inr db' /\
    root_download db' "demo" 8 "eu"
    = root_download (snd (init empty_database)) "demo" 8 "eu".
Proof.
  assert (H : ~ ("demo" = "demo" /\ 8 = 7 /\ "eu" = "eu"))
    by (intros (_ & E & _); discriminate E).
  split; [reflexivity|]. split; [exact H|].
  apply (root_upload_keeps_other_keys (snd (init empty_database))
           (mkTable [] true) 5 "demo" 7 "eu" "blob" "demo" 8 "eu" eq_refl H).
Defined.

(** * From an empty file to a leaderboard *)

(** On a database file that has just been created every write and read
    fails because the tables are missing.  After [init] a first
    [web_put2] succeeds and leaves exactly the row written, under both
    unique indexes; for a non-zero region and a time of writing not before
    the epoch, mode 1 then returns total 1 and that row, and mode 2 asked
    by the writer returns total 0 and that row as "mine". *)
Theorem first_score_on_fresh_database (now now' : Z) (gamename : string)
    (pid region category score : Z) (data : string) :
  region <> 0 -> 0 <= now ->
  let new := mkRow gamename pid region category score data now in
  web_put2 empty_database now gamename pid region category score data
  = inl (NoSuchTable "ranking") /\
  root_upload empty_database now gamename pid "" data
  = inl (NoSuchTable "storage") /\
  root_download empty_database gamename pid "" = inl (NoSuchTable "storage") /\
  exists db0 db1,
    init empty_database = (None, db0) /\
    web_put2 db0 now gamename pid region category score data = inr db1 /\
    db1 = mkDatabase (Some (mkTable [] true)) (Some (mkTable [new] true)) /\
    retrieve [new] now' gamename pid region category 1 no_options
    = Return (1, [new]) /\
    retrieve [new] now' gamename pid region category 2 no_options
    = Return (0, [new]).
Proof.
  intros Hregion Hnow new.
  split; [reflexivity|]. split; [reflexivity|]. split; [reflexivity|].
  eexists _, _. split; [reflexivity|]. split; [reflexivity|].
  split; [reflexivity|].
  assert (Hland : (Z.land region region =? 0) = false).
  { rewrite Z.land_diag. lia. }
  assert (Hfresh : (0 <=? now) = true) by lia.
  split.
  - rewrite (retrieve_uniform _ now' _ _ _ _ _ no_options 0 eq_refl) by lia.
    cbv zeta.
    unfold where_peers, where_all, region_and. simpl.
    rewrite String.eqb_refl, Z.eqb_refl, Hland, Hfresh. reflexivity.
  - rewrite (retrieve_uniform _ now' _ _ _ _ _ no_options 0 eq_refl) by lia.
    cbv zeta.
    unfold own_record, where_mine, where_peers, where_nearby, region_and.
    simpl.
    rewrite String.eqb_refl, !Z.eqb_refl, Hland. simpl.
    reflexivity.
Qed.

Lemma first_score_on_fresh_database_witness :
  1 <> 0 /\ 0 <= 5 /\
  exists db0 db1,
    init empty_database = (None, db0) /\
    web_put2 db0 5 "demo" 7 1 0 50 "" = inr db1 /\
    retrieve [mkRow "demo" 7 1 0 50 "" 5] demo_now "demo" 7 1 0 1 no_options
    = Return (1, [mkRow "demo" 7 1 0 50 "" 5]).
Proof.
  assert (H1 : 1 <> 0) by (intros E; discriminate E).
  assert (H2 : 0 <= 5) by (intros E; discriminate E).
  split; [exact H1|]. split; [exact H2|].
  destruct (first_score_on_fresh_database 5 demo_now "demo" 7 1 0 50 "" H1 H2)
    as (_ & _ & _ & db0 & db1 & Hinit & Hput & _ & Htop & _).
  exists db0, db1. split; [exact Hinit|]. split; [exact Hput | exact Htop].
Defined.
